(** * create_issues.py: batch creation of GitHub issues from a task file

    A shallow embedding of [scripts/create_issues.py] and the properties of
    its formatter ([create_issue_body], [create_issue]), its preflight check
    ([check_gh_cli]) and its batch runner ([main]).

    Modelling choices.
    - The document returned by [json.load] is a value of type [json]; a
      Python [dict] is the list of its items in insertion order.
    - A Python [str] is the string of its UTF-8 bytes.
    - Every effect of the script is an [event] appended to a trace: a line
      printed, a subprocess started, the task file opened, the prompt read.
    - What the outside world answers is an [env]: the outcome of the n-th
      subprocess, the state of the task file, the line typed at the prompt.
      A command line that [subprocess.run] refuses (an argument that is
      not a [str], an embedded null byte) is a subprocess that cannot be
      started.  [print] always succeeds and [input] always returns a line.
    - A computation returns a value or raises ([res]); [M] threads the
      trace through.
    - [str(v)] of a value that is not a [str] is a parameter of the
      development ([str_of]): the properties hold for every rendering. *)

From Stdlib Require Import List String Ascii ZArith Lia Bool Arith.
From Stdlib Require Import DecimalString PrimFloat.
Import ListNotations.
Local Open Scope string_scope.
Set Warnings "-register-all".

(** ** Values *)

Inductive json : Type :=
| JNull
| JBool (b : bool)
| JInt (z : Z)
| JFloat (f : float)
| JStr (s : string)
| JArr (items : list json)
| JObj (kvs : list (string * json)).

(** Exceptions the script can meet.  [OtherError] stands for any exception
    class the script neither raises nor catches by name. *)
Inductive exn : Type :=
| FileNotFoundError
| PermissionError
| JSONDecodeError
| KeyError (key : string)
| TypeError
| CalledProcessError (returncode : Z) (stderr : string)
| SystemExit (code : Z)
| OtherError (name : string).

Inductive res (A : Type) : Type :=
| Ok (a : A)
| Raise (e : exn).
Arguments Ok {A} a.
Arguments Raise {A} e.

(** ** Strings *)

Definition nl : string := String "010"%char EmptyString.

Definition byte_in (lo hi : nat) (c : ascii) : bool :=
  let n := nat_of_ascii c in ((lo <=? n) && (n <=? hi))%nat.

(** [chars s]: the characters (code points) of [s], each as the string of
    its UTF-8 bytes: a continuation byte (0x80..0xBF) belongs to the
    character before it. *)
Fixpoint chars (s : string) : list string :=
  match s with
  | EmptyString => []
  | String c rest =>
      match chars rest with
      | String c' hd :: tl =>
          if byte_in 128 191 c' then String c (String c' hd) :: tl
          else String c EmptyString :: String c' hd :: tl
      | other => String c EmptyString :: other
      end
  end.

(** [''.join(l)] *)
Definition join (l : list string) : string :=
  fold_right append EmptyString l.

Definition bytes (l : list nat) : string :=
  fold_right (fun n s => String (ascii_of_nat n) s) EmptyString l.

(** The characters [str.isspace] accepts. *)
Definition whitespace : list string :=
  map bytes
    [ [9]; [10]; [11]; [12]; [13]; [28]; [29]; [30]; [31]; [32];
      [194; 133]; [194; 160]; [225; 154; 128];
      [226; 128; 128]; [226; 128; 129]; [226; 128; 130]; [226; 128; 131];
      [226; 128; 132]; [226; 128; 133]; [226; 128; 134]; [226; 128; 135];
      [226; 128; 136]; [226; 128; 137]; [226; 128; 138];
      [226; 128; 168]; [226; 128; 169]; [226; 128; 175];
      [226; 129; 159]; [227; 128; 128] ].

Definition isspace (ch : string) : bool :=
  existsb (String.eqb ch) whitespace.

Fixpoint lstrip (l : list string) : list string :=
  match l with
  | ch :: tl => if isspace ch then lstrip tl else l
  | [] => []
  end.

(** [str.strip()] *)
Definition strip (s : string) : string :=
  join (rev (lstrip (rev (lstrip (chars s))))).

(** [str.lower()] on the ASCII letters.  The script only compares the
    result with ["y"], and no character outside ASCII lowers to [y]. *)
Definition lower_ascii (c : ascii) : ascii :=
  if byte_in 65 90 c then ascii_of_nat (nat_of_ascii c + 32) else c.

Fixpoint lower (s : string) : string :=
  match s with
  | EmptyString => EmptyString
  | String c rest => String (lower_ascii c) (lower rest)
  end.

(** Decimal rendering of a count, as an f-string renders an [int]. *)
Definition dec (n : nat) : string :=
  NilEmpty.string_of_uint (Nat.to_uint n).

(** ** The world *)

(** [subprocess.run(..., capture_output=True, text=True)] *)
Record completed : Type := Completed
  { returncode : Z; stdout : string; stderr : string }.

(** What happens to a subprocess: it runs and exits; its program is not on
    the path; or it cannot be started for any other reason. *)
Inductive proc_outcome : Type :=
| Exited (r : completed)
| NotFound
| CannotStart (why : string).

(** What [open] and [json.load] meet: no file, a file that may not be
    read, a text that is not JSON, any other failure of either call (a
    directory in place of the file, bytes that do not decode, ...), or a
    document. *)
Inductive file_state : Type :=
| Missing
| Unreadable
| Malformed
| Unloadable (why : string)
| Document (data : json).

Record env : Type := Env
  { spawn : nat -> list json -> proc_outcome;
    issues_file : file_state;
    answer : string }.

Inductive event : Type :=
| EPrint (line : string)
| ERun (cmd : list json)
| EOpen (path : string)
| EInput (prompt : string).

Definition trace : Type := list event.

Definition is_run (e : event) : bool :=
  match e with ERun _ => true | _ => false end.

(** Number of subprocesses started so far. *)
Definition runs (w : trace) : nat := List.length (filter is_run w).

(** ** Computations *)

Definition M (A : Type) : Type := trace -> res A * trace.

Class Monad (T : Type -> Type) : Type :=
  { ret : forall {A}, A -> T A;
    bind : forall {A B}, T A -> (A -> T B) -> T B }.

#[global] Instance res_Monad : Monad res :=
  { ret := fun A a => Ok a;
    bind := fun A B m k =>
      match m with Ok a => k a | Raise e => Raise e end }.

#[global] Instance M_Monad : Monad M :=
  { ret := fun A a w => (Ok a, w);
    bind := fun A B m k w =>
      match m w with
      | (Ok a, w') => k a w'
      | (Raise e, w') => (Raise e, w')
      end }.

Notation "x <- m ;; k" := (bind m (fun x => k))
  (at level 61, m at next level, right associativity).
Notation "m ;; k" := (bind m (fun _ => k))
  (at level 61, right associativity).

Definition raise {A} (e : exn) : M A := fun w => (Raise e, w).

Definition lift {A} (r : res A) : M A := fun w => (r, w).

Definition emit (e : event) : M unit := fun w => (Ok tt, (w ++ [e])%list).

Definition print (line : string) : M unit := emit (EPrint line).

(** [try: m except <the classes h accepts>: h e] *)
Definition try_except {A} (m : M A) (h : exn -> option (M A)) : M A :=
  fun w =>
    match m w with
    | (Ok a, w') => (Ok a, w')
    | (Raise e, w') =>
        match h e with
        | Some k => k w'
        | None => (Raise e, w')
        end
    end.

(** ** Built-in operations on values *)

Fixpoint dict_get (kvs : list (string * json)) (key : string) : option json :=
  match kvs with
  | [] => None
  | (k, v) :: tl => if String.eqb k key then Some v else dict_get tl key
  end.

(** [v[key]] for a [str] key: only a dict can be subscripted with one. *)
Definition getitem (v : json) (key : string) : res json :=
  match v with
  | JObj kvs =>
      match dict_get kvs key with
      | Some x => Ok x
      | None => Raise (KeyError key)
      end
  | _ => Raise TypeError
  end.

(** Truth value of [v] in a condition. *)
Definition truthy (v : json) : bool :=
  match v with
  | JNull => false
  | JBool b => b
  | JInt z => negb (z =? 0)%Z
  | JFloat f => negb (f =? 0)%float
  | JStr s => negb (String.eqb s "")
  | JArr items => match items with [] => false | _ => true end
  | JObj kvs => match kvs with [] => false | _ => true end
  end.

(** The elements [for x in v] visits. *)
Definition iter (v : json) : res (list json) :=
  match v with
  | JArr items => Ok items
  | JObj kvs => Ok (map (fun kv => JStr (fst kv)) kvs)
  | JStr s => Ok (map JStr (chars s))
  | _ => Raise TypeError
  end.

(** [len(v)] *)
Definition len (v : json) : res nat :=
  match v with
  | JArr items => Ok (List.length items)
  | JObj kvs => Ok (List.length kvs)
  | JStr s => Ok (List.length (chars s))
  | _ => Raise TypeError
  end.

(** ** The script *)

Section Script.

(** [str(v)] for a value that is not a [str] (the interpreter's rendering
    of numbers, booleans, [None], lists and dicts). *)
Variable str_of : json -> string.

(** A replacement field [{v}] of an f-string. *)
Definition fmt (v : json) : string :=
  match v with
  | JStr s => s
  | other => str_of other
  end.

(** [Path(__file__).parent.parent / 'docs' / 'issues-data.json'], relative
    to the directory above the script's. *)
Definition json_path : string := "docs/issues-data.json".

Definition load_issue_data (E : env) : M json :=
  emit (EOpen json_path) ;;
  match issues_file E with
  | Missing => raise FileNotFoundError
  | Unreadable => raise PermissionError
  | Malformed => raise JSONDecodeError
  | Unloadable why => raise (OtherError why)
  | Document data => ret data
  end.

(** [subprocess.run(cmd, capture_output=True, text=True, check=check)]: the
    n-th subprocess of the run gets the n-th outcome of the environment. *)
Definition subprocess_run (E : env) (cmd : list json) (check : bool)
  : M completed :=
  fun w =>
    let w' := (w ++ [ERun cmd])%list in
    match spawn E (runs w) cmd with
    | Exited r =>
        if check && negb (returncode r =? 0)%Z
        then (Raise (CalledProcessError (returncode r) (stderr r)), w')
        else (Ok r, w')
    | NotFound => (Raise FileNotFoundError, w')
    | CannotStart why => (Raise (OtherError why), w')
    end.

Definition gh_auth_status : list json := [JStr "gh"; JStr "auth"; JStr "status"].

Definition check_gh_cli (E : env) : M bool :=
  try_except
    (result <- subprocess_run E gh_auth_status false ;;
     if negb (returncode result =? 0)%Z
     then print "❌ GitHub CLI is not authenticated. Please run: gh auth login" ;;
          ret false
     else ret true)
    (fun e =>
       match e with
       | FileNotFoundError =>
           Some (print "❌ GitHub CLI (gh) is not installed." ;;
                 print "Install it from: https://cli.github.com/" ;;
                 ret false)
       | _ => None
       end).

Definition body_footer : string :=
"
## Resources
- Implementation Plan: `docs/SNES9XWASM_IMPLEMENTATION_PLAN.md`
- Task Breakdown: `docs/TASK_BREAKDOWN.md`

## Definition of Done
- [ ] Code changes committed and reviewed
- [ ] All acceptance criteria met
- [ ] Tests written and passing
- [ ] Documentation updated
".

Definition create_issue_body (task : json) : res string :=
  objective <- getitem task "objective" ;;
  let body := "## Objective
" ++ fmt objective ++ "

## Prerequisites
" in
  cond <- getitem task "prerequisites" ;;
  body <- (if truthy cond
           then prerequisites <- getitem task "prerequisites" ;;
                prereqs <- iter prerequisites ;;
                ret (fold_left
                       (fun body prereq => body ++ "- " ++ fmt prereq ++ nl)
                       prereqs body)
           else ret (body ++ "- None" ++ nl)) ;;
  let body := body ++ "
## Acceptance Criteria
" in
  acceptanceCriteria <- getitem task "acceptanceCriteria" ;;
  criteria <- iter acceptanceCriteria ;;
  let body := fold_left
                (fun body criterion => body ++ "- [ ] " ++ fmt criterion ++ nl)
                criteria body in
  timeEstimate <- getitem task "timeEstimate" ;;
  ret (body ++ "
## Time Estimate
" ++ fmt timeEstimate ++ nl ++ body_footer).

Definition create_issue (E : env) (repo task : json) : M bool :=
  id <- lift (getitem task "id") ;;
  title <- lift (getitem task "title") ;;
  let title := "[" ++ fmt id ++ "] " ++ fmt title in
  body <- lift (create_issue_body task) ;;
  labels <- lift (getitem task "labels") ;;
  print ("Creating issue: " ++ title) ;;
  let cmd := [ JStr "gh"; JStr "issue"; JStr "create";
               JStr "--repo"; repo;
               JStr "--title"; JStr title;
               JStr "--body"; JStr body;
               JStr "--assignee"; JStr "@me" ] in
  labels <- lift (iter labels) ;;
  let cmd := fold_left (fun cmd label => (cmd ++ [JStr "--label"; label])%list)
                       labels cmd in
  try_except
    (result <- subprocess_run E cmd true ;;
     id <- lift (getitem task "id") ;;
     print ("  ✓ Created " ++ fmt id ++ ": " ++ strip (stdout result)) ;;
     ret true)
    (fun e =>
       match e with
       | CalledProcessError _ e_stderr =>
           Some (id <- lift (getitem task "id") ;;
                 print ("  ✗ Failed to create " ++ fmt id ++ ": " ++ e_stderr) ;;
                 ret false)
       | _ => None
       end).

Definition input (E : env) (prompt : string) : M string :=
  emit (EInput prompt) ;; ret (answer E).

(** The loop of [main] over the tasks, with its two counters. *)
Fixpoint create_all (E : env) (repo : json) (tasks : list json)
    (created failed : nat) : M (nat * nat) :=
  match tasks with
  | [] => ret (created, failed)
  | task :: rest =>
      ok <- create_issue E repo task ;;
      if ok then create_all E repo rest (created + 1) failed
      else create_all E repo rest created (failed + 1)
  end.

Definition main (E : env) : M unit :=
  print ("🚀 Snes9xWasm Implementation - GitHub Issues Creator" ++ nl) ;;
  ok <- check_gh_cli E ;;
  (if negb ok then raise (SystemExit 1) else ret tt) ;;
  print "📄 Loading issue data..." ;;
  data <- load_issue_data E ;;
  project <- lift (getitem data "project") ;;
  repo <- lift (getitem project "repository") ;;
  tasks <- lift (getitem data "tasks") ;;
  print ("📦 Repository: " ++ fmt repo) ;;
  n <- lift (len tasks) ;;
  print ("📋 Total tasks: " ++ dec n ++ nl) ;;
  response <- input E "Create all issues? (y/N): " ;;
  if negb (String.eqb (lower response) "y")
  then print "Cancelled."
  else
    items <- lift (iter tasks) ;;
    counts <- create_all E repo items 0 0 ;;
    let created := fst counts in
    let failed := snd counts in
    print (nl ++ "✅ Summary:") ;;
    print ("   Created: " ++ dec created) ;;
    print ("   Failed: " ++ dec failed) ;;
    n <- lift (len tasks) ;;
    print ("   Total: " ++ dec n) ;;
    if (0 <? created)%nat
    then
      print (nl ++ "🔗 View issues: https://github.com/" ++ fmt repo ++ "/issues") ;;
      print (nl ++ "📋 Next steps:") ;;
      print "   1. Create project board" ;;
      project <- lift (getitem data "project") ;;
      milestone <- lift (getitem project "milestone") ;;
      print ("   2. Set up milestone: " ++ fmt milestone) ;;
      print "   3. Organize issues into sprints" ;;
      print "   4. Begin Sprint 1!"
    else ret tt.

(** One run of the script, from an empty trace. *)
Definition run (E : env) : res unit * trace := main E [].

(** The status the interpreter exits with: 0 after a normal return, the
    argument of [sys.exit], 1 after any other uncaught exception. *)
Definition exit_code (r : res unit) : Z :=
  match r with
  | Ok _ => 0
  | Raise (SystemExit code) => code
  | Raise _ => 1
  end.

(** ** Reading the trace *)

(** The command lines of the subprocesses started, in order. *)
Definition commands (w : trace) : list (list json) :=
  flat_map (fun e => match e with ERun cmd => [cmd] | _ => [] end) w.

(** [gh issue create ...] *)
Definition is_create (cmd : list json) : bool :=
  match cmd with
  | JStr a :: JStr b :: JStr c :: _ =>
      String.eqb a "gh" && String.eqb b "issue" && String.eqb c "create"
  | _ => false
  end.

Definition creation_calls (w : trace) : list (list json) :=
  filter is_create (commands w).

(** The title and body a creation command carries. *)
Definition title_and_body (cmd : list json) : option (json * json) :=
  match cmd with
  | _ :: _ :: _ :: JStr o1 :: _ :: JStr o2 :: t :: JStr o3 :: b :: _ =>
      if String.eqb o1 "--repo" && String.eqb o2 "--title"
         && String.eqb o3 "--body"
      then Some (t, b) else None
  | _ => None
  end.

(** Position of the first event that satisfies [p]. *)
Fixpoint first_index (p : event -> bool) (w : trace) : option nat :=
  match w with
  | [] => None
  | e :: tl => if p e then Some 0%nat
               else option_map S (first_index p tl)
  end.

Definition is_open (e : event) : bool :=
  match e with EOpen _ => true | _ => false end.

Definition is_input (e : event) : bool :=
  match e with EInput _ => true | _ => false end.

Definition is_output (e : event) : bool :=
  match e with EPrint _ | ERun _ => true | _ => false end.

(** ** Task records and their rendering, as the specification words them *)

Record task : Type := Task
  { id : string;
    title : string;
    objective : string;
    prerequisites : list string;
    acceptanceCriteria : list string;
    timeEstimate : string;
    labels : list string }.

Definition strs (l : list string) : json := JArr (map JStr l).

(** [d] is the dict [json.load] builds for the task record [t]. *)
Definition represents (d : json) (t : task) : Prop :=
  getitem d "id" = Ok (JStr (id t)) /\
  getitem d "title" = Ok (JStr (title t)) /\
  getitem d "objective" = Ok (JStr (objective t)) /\
  getitem d "prerequisites" = Ok (strs (prerequisites t)) /\
  getitem d "acceptanceCriteria" = Ok (strs (acceptanceCriteria t)) /\
  getitem d "timeEstimate" = Ok (JStr (timeEstimate t)) /\
  getitem d "labels" = Ok (strs (labels t)).

(** The dict with exactly the seven entries of [t]. *)
Definition task_json (t : task) : json :=
  JObj [ ("id", JStr (id t)); ("title", JStr (title t));
         ("objective", JStr (objective t));
         ("prerequisites", strs (prerequisites t));
         ("acceptanceCriteria", strs (acceptanceCriteria t));
         ("timeEstimate", JStr (timeEstimate t));
         ("labels", strs (labels t)) ].

Definition bullet (item : string) : string := "- " ++ item ++ nl.

Definition checkbox (item : string) : string := "- [ ] " ++ item ++ nl.

Definition prerequisites_section (t : task) : string :=
  match prerequisites t with
  | [] => bullet "None"
  | items => join (map bullet items)
  end.

Definition criteria_section (t : task) : string :=
  join (map checkbox (acceptanceCriteria t)).

Definition objective_part (t : task) : string :=
  "## Objective" ++ nl ++ objective t ++ nl ++ nl.

Definition prerequisites_header : string := "## Prerequisites" ++ nl.

Definition criteria_header : string := "## Acceptance Criteria" ++ nl.

Definition estimate_part (t : task) : string :=
  nl ++ "## Time Estimate" ++ nl ++ timeEstimate t ++ nl.

Definition issue_title (t : task) : string :=
  "[" ++ id t ++ "] " ++ title t.

Definition issue_body (t : task) : string :=
  objective_part t ++ prerequisites_header ++ prerequisites_section t
  ++ nl ++ criteria_header ++ criteria_section t
  ++ estimate_part t ++ body_footer.

Definition issue_cmd (repo : json) (t : task) : list json :=
  ([ JStr "gh"; JStr "issue"; JStr "create";
     JStr "--repo"; repo;
     JStr "--title"; JStr (issue_title t);
     JStr "--body"; JStr (issue_body t);
     JStr "--assignee"; JStr "@me" ]
   ++ flat_map (fun label => [JStr "--label"; JStr label]) (labels t))%list.

(** The lines of a text, each without its line feed. *)
Fixpoint lines (s : string) : list string :=
  match s with
  | EmptyString => []
  | String c rest =>
      if Ascii.eqb c "010"%char then EmptyString :: lines rest
      else match lines rest with
           | [] => [String c EmptyString]
           | l :: ls => String c l :: ls
           end
  end.

Fixpoint has_newline (s : string) : bool :=
  match s with
  | EmptyString => false
  | String c rest => Ascii.eqb c "010"%char || has_newline rest
  end.

(** A computation that only prints and starts [gh issue create]. *)
Definition creates_only (evs : trace) : Prop :=
  forallb is_output evs = true /\ forallb is_create (commands evs) = true.

(** ** The stages of a run *)

Definition banner : string :=
  "🚀 Snes9xWasm Implementation - GitHub Issues Creator" ++ nl.

(** The trace when the preflight has been run. *)
Definition probed : trace := [EPrint banner; ERun gh_auth_status].

Definition not_installed : trace :=
  [EPrint "❌ GitHub CLI (gh) is not installed.";
   EPrint "Install it from: https://cli.github.com/"].

Definition not_authenticated : trace :=
  [EPrint "❌ GitHub CLI is not authenticated. Please run: gh auth login"].

(** The trace when the task file has been opened. *)
Definition opened : trace :=
  (probed ++ [EPrint "📄 Loading issue data..."; EOpen json_path])%list.

(** The trace when the prompt has been answered. *)
Definition prompted (repo : json) (n : nat) : trace :=
  (opened ++ [EPrint ("📦 Repository: " ++ fmt repo);
              EPrint ("📋 Total tasks: " ++ dec n ++ nl);
              EInput "Create all issues? (y/N): "])%list.

Definition summary (created failed total : nat) : trace :=
  [EPrint (nl ++ "✅ Summary:");
   EPrint ("   Created: " ++ dec created);
   EPrint ("   Failed: " ++ dec failed);
   EPrint ("   Total: " ++ dec total)].

Definition next_steps (repo : json) : trace :=
  [EPrint (nl ++ "🔗 View issues: https://github.com/" ++ fmt repo ++ "/issues");
   EPrint (nl ++ "📋 Next steps:");
   EPrint "   1. Create project board"].

Definition milestone_steps (milestone : json) : trace :=
  [EPrint ("   2. Set up milestone: " ++ fmt milestone);
   EPrint "   3. Organize issues into sprints";
   EPrint "   4. Begin Sprint 1!"].

(** Lines 115 to 117 of [main]: the document, its repository and its
    tasks, or the exception that ends the load. *)
Definition load_result (f : file_state) : res (json * json * json) :=
  match f with
  | Missing => Raise FileNotFoundError
  | Unreadable => Raise PermissionError
  | Malformed => Raise JSONDecodeError
  | Unloadable why => Raise (OtherError why)
  | Document data =>
      project <- getitem data "project" ;;
      repo <- getitem project "repository" ;;
      tasks <- getitem data "tasks" ;;
      ret (data, repo, tasks)
  end.

(** The preflight check fails: the client is missing or its status
    subcommand exits non-zero. *)
Definition preflight_fails (E : env) : bool :=
  match spawn E 0 gh_auth_status with
  | Exited r => negb (returncode r =? 0)%Z
  | NotFound => true
  | CannotStart _ => false
  end.

Definition preflight_passes (E : env) : bool :=
  match spawn E 0 gh_auth_status with
  | Exited r => (returncode r =? 0)%Z
  | _ => false
  end.

(** The end of [main], from line 138 on, after the loop has returned its
    counters or raised. *)
Definition finish (data repo : json) (total : nat)
    (looped : res (nat * nat) * trace) : res unit * trace :=
  match looped with
  | (Raise e, w) => (Raise e, w)
  | (Ok (created, failed), w) =>
      let w := (w ++ summary created failed total)%list in
      if (0 <? created)%nat
      then
        match (project <- getitem data "project" ;;
               getitem project "milestone") with
        | Ok milestone =>
            (Ok tt, (w ++ next_steps repo ++ milestone_steps milestone)%list)
        | Raise e => (Raise e, (w ++ next_steps repo)%list)
        end
      else (Ok tt, w)
  end.

(** The events a computation started at [w] added to the trace. *)
Definition emitted {A} (w : trace) (out : res A * trace) : trace :=
  skipn (List.length w) (snd out).

(** The (title, body) pairs handed to the client, in order. *)
Definition formatted (w : trace) : list (json * json) :=
  flat_map (fun cmd => match title_and_body cmd with
                       | Some p => [p]
                       | None => []
                       end)
           (creation_calls w).

Definition prompt : string := "Create all issues? (y/N): ".

(** An exception other than [SystemExit]: uncaught, it ends the run with
    a traceback. *)
Definition is_error (e : exn) : bool :=
  match e with SystemExit _ => false | _ => true end.

Definition raises_errors_only {A} (r : res A) : Prop :=
  forall e, r = Raise e -> is_error e = true.

(** [gh auth status] *)
Definition is_status (cmd : list json) : bool :=
  match cmd with
  | [JStr a; JStr b; JStr c] =>
      String.eqb a "gh" && String.eqb b "auth" && String.eqb c "status"
  | _ => false
  end.

Definition is_preflight (e : event) : bool :=
  match e with ERun cmd => is_status cmd | _ => false end.

(** The claim that the task file is loaded before the client is probed. *)
Definition loader_first (w : trace) : bool :=
  match first_index is_open w, first_index is_preflight w with
  | Some i, Some j => (i <? j)%nat
  | _, _ => false
  end.

(** Numbers of zero and of non-zero exit statuses. *)
Definition succeeded (codes : list Z) : nat :=
  List.length (filter (fun c => (c =? 0)%Z) codes).

Definition failures (codes : list Z) : nat :=
  List.length (filter (fun c => negb (c =? 0)%Z) codes).

(** The n-th subprocess of the run exits with the status [code]. *)
Definition exits_with (E : env) (n : nat) (code : Z) : Prop :=
  forall cmd, exists r, spawn E n cmd = Exited r /\ returncode r = code.

(** [data] is a document with the repository, the milestone and the task
    dicts [records]. *)
Definition document (data : json) (repo milestone : string)
    (records : list json) : Prop :=
  exists project,
    getitem data "project" = Ok project /\
    getitem project "repository" = Ok (JStr repo) /\
    getitem project "milestone" = Ok (JStr milestone) /\
    getitem data "tasks" = Ok (JArr records).

(** ** Sample inputs *)

Definition has_keys (d : json) (keys : list string) : bool :=
  forallb (fun k => match getitem d k with Ok _ => true | Raise _ => false end)
          keys.

Definition task_fields : list string :=
  ["id"; "title"; "objective"; "prerequisites"; "acceptanceCriteria";
   "timeEstimate"; "labels"].

(** Structural validity as the specification words it: no required field
    is absent from the project metadata or from any task record. *)
Definition structurally_valid (data : json) : bool :=
  match getitem data "project", getitem data "tasks" with
  | Ok project, Ok (JArr records) =>
      has_keys project ["repository"; "milestone"]
      && forallb (fun d => has_keys d task_fields) records
  | _, _ => false
  end.

(** [str] of [None], booleans and integers; the samples hold no other
    value that is not a [str]. *)
Definition str_atoms (v : json) : string :=
  match v with
  | JNull => "None"
  | JBool true => "True"
  | JBool false => "False"
  | JInt z => NilEmpty.string_of_int (Z.to_int z)
  | _ => ""
  end.

Definition task_T1 : task :=
  Task "T1" "Add X" "Do X" [] ["X works"] "1h" ["feature"].

Definition task_T2 : task :=
  Task "T2" "Add Y" "Do Y" ["T1"; "Design review"] ["A"; "B"] "2h"
       ["feature"; "core"].

Definition task_T3 : task :=
  Task "T3" "Add Z" "Do Z" ["T2"] ["Z works"] "30m" [].

(** [task_T1] under another identifier, title and label set. *)
Definition task_T1_renamed : task :=
  Task "T9" "Renamed" "Do X" [] ["X works"] "1h" ["chore"; "later"].

(** A task dict without [objective]. *)
Definition task_without_objective : json :=
  JObj [ ("id", JStr "T2"); ("title", JStr "Add Y");
         ("prerequisites", strs []); ("acceptanceCriteria", strs ["Y works"]);
         ("timeEstimate", JStr "2h"); ("labels", strs []) ].

Definition project_M1 : json :=
  JObj [("repository", JStr "org/repo"); ("milestone", JStr "M1")].

Definition doc_one : json :=
  JObj [("project", project_M1); ("tasks", JArr [task_json task_T1])].

Definition doc_three : json :=
  JObj [("project", project_M1);
        ("tasks", JArr [task_json task_T1; task_json task_T2;
                        task_json task_T3])].

Definition doc_invalid : json :=
  JObj [("project", project_M1);
        ("tasks", JArr [task_json task_T1; task_without_objective])].

(** A client whose status check passes and whose k-th creation call exits
    with the k-th status of [statuses] (0 beyond the list). *)
Definition scripted (statuses : list Z) (n : nat) (cmd : list json)
  : proc_outcome :=
  match n with
  | O => Exited (Completed 0 "Logged in to github.com" "")
  | S k =>
      let code := nth k statuses 0%Z in
      if (code =? 0)%Z
      then Exited (Completed code ("https://github.com/org/repo/issues/1" ++ nl) "")
      else Exited (Completed code "" "HTTP 422")
  end.

Definition env_confirmed : env :=
  Env (scripted []) (Document doc_one) "y".

Definition env_second_fails : env :=
  Env (scripted [0; 1; 0]%Z) (Document doc_three) "Y".

Definition env_declined : env :=
  Env (scripted []) (Document doc_one) "yes".

Definition env_invalid : env :=
  Env (scripted []) (Document doc_invalid) "y".

Definition env_no_file : env :=
  Env (scripted []) Missing "y".

Definition env_no_client : env :=
  Env (fun _ _ => NotFound) (Document doc_one) "y".

(** ** The code beyond the task records of the specification *)

Definition body_fields : list string :=
  ["objective"; "prerequisites"; "acceptanceCriteria"; "timeEstimate"].

(** The rendering of [create_issue_body] for any values of the four
    fields it reads: [ps] are the elements the prerequisites loop visits,
    [cs] those the criteria loop visits. *)
Definition rendered (o p : json) (ps cs : list json) (te : json) : string :=
  "## Objective" ++ nl ++ fmt o ++ nl ++ nl ++ "## Prerequisites" ++ nl
  ++ (if truthy p then join (map (fun x => "- " ++ fmt x ++ nl) ps)
      else "- None" ++ nl)
  ++ nl ++ "## Acceptance Criteria" ++ nl
  ++ join (map (fun x => "- [ ] " ++ fmt x ++ nl) cs)
  ++ nl ++ "## Time Estimate" ++ nl ++ fmt te ++ nl ++ body_footer.

(** [task_T1] with [prerequisites: null]. *)
Definition task_null_prerequisites : json :=
  JObj [ ("id", JStr "T1"); ("title", JStr "Add X"); ("objective", JStr "Do X");
         ("prerequisites", JNull); ("acceptanceCriteria", strs ["X works"]);
         ("timeEstimate", JStr "1h"); ("labels", strs ["feature"]) ].

(** A task whose prerequisites are the string [T1] instead of a list. *)
Definition task_string_prerequisites : json :=
  JObj [ ("id", JStr "T4"); ("title", JStr "Add W"); ("objective", JStr "Do W");
         ("prerequisites", JStr "T1"); ("acceptanceCriteria", strs ["W works"]);
         ("timeEstimate", JStr "1h"); ("labels", strs []) ].

(** The line [create_issue] prints for the task identifier [i] once the
    subprocess has exited with [r]. *)
Definition outcome_line (i : json) (r : completed) : string :=
  if (returncode r =? 0)%Z
  then "  ✓ Created " ++ fmt i ++ ": " ++ strip (stdout r)
  else "  ✗ Failed to create " ++ fmt i ++ ": " ++ stderr r.

(** What [create_issue] adds to the trace for the task record [t] when its
    subprocess exits with [r]. *)
Definition issue_events (repo : json) (t : task) (r : completed) : trace :=
  [EPrint ("Creating issue: " ++ issue_title t);
   ERun (issue_cmd repo t);
   EPrint (outcome_line (JStr (id t)) r)].

Fixpoint batch_events (repo : json) (ts : list task) (rs : list completed)
  : trace :=
  match ts, rs with
  | t :: ts', r :: rs' => (issue_events repo t r ++ batch_events repo ts' rs')%list
  | _, _ => []
  end.

(** The creation calls for [ts], started when [first] subprocesses have
    run, exit with [rs]. *)
Fixpoint answered (E : env) (repo : json) (first : nat)
    (ts : list task) (rs : list completed) : Prop :=
  match ts, rs with
  | [], [] => True
  | t :: ts', r :: rs' =>
      spawn E first (issue_cmd repo t) = Exited r
      /\ answered E repo (S first) ts' rs'
  | _, _ => False
  end.

Definition created_count (rs : list completed) : nat :=
  succeeded (map returncode rs).

Definition failed_count (rs : list completed) : nat :=
  failures (map returncode rs).

(** Line 148 of [main]: the milestone the next steps name. *)
Definition milestone_of (data : json) : res json :=
  project <- getitem data "project" ;; getitem project "milestone".

(** What the sample client answers to a successful creation call. *)
Definition created_ok : completed :=
  Completed 0 ("https://github.com/org/repo/issues/1" ++ nl) "".

Definition rejected_422 : completed := Completed 1 "" "HTTP 422".

(** A client that is removed after the first creation call. *)
Definition env_client_removed : env :=
  Env (fun n _ => match n with
                  | O => Exited (Completed 0 "Logged in to github.com" "")
                  | S O => Exited created_ok
                  | _ => NotFound
                  end)
      (Document doc_three) "y".

(** A document whose project has no milestone. *)
Definition doc_no_milestone : json :=
  JObj [("project", JObj [("repository", JStr "org/repo")]);
        ("tasks", JArr [task_json task_T1])].

Definition env_no_milestone : env :=
  Env (scripted []) (Document doc_no_milestone) "y".

(** A document whose tasks are an object keyed by identifier. *)
Definition doc_tasks_object : json :=
  JObj [("project", project_M1);
        ("tasks", JObj [("T1", task_json task_T1)])].

Definition env_tasks_object : env :=
  Env (scripted []) (Document doc_tasks_object) "y".

(** The lines of the body of [t], section by section. *)
Definition body_lines (t : task) : list string :=
  (["## Objective"; objective t; ""; "## Prerequisites"]
   ++ match prerequisites t with
      | [] => ["- None"]
      | items => map (append "- ") items
      end
   ++ [""; "## Acceptance Criteria"]
   ++ map (append "- [ ] ") (acceptanceCriteria t)
   ++ [""; "## Time Estimate"; timeEstimate t; "";
       "## Resources";
       "- Implementation Plan: `docs/SNES9XWASM_IMPLEMENTATION_PLAN.md`";
       "- Task Breakdown: `docs/TASK_BREAKDOWN.md`";
       "";
       "## Definition of Done";
       "- [ ] Code changes committed and reviewed";
       "- [ ] All acceptance criteria met";
       "- [ ] Tests written and passing";
       "- [ ] Documentation updated"])%list.

(** No field that the body renders holds a line feed. *)
Definition single_line_fields (t : task) : bool :=
  negb (has_newline (objective t))
  && forallb (fun p => negb (has_newline p)) (prerequisites t)
  && forallb (fun c => negb (has_newline c)) (acceptanceCriteria t)
  && negb (has_newline (timeEstimate t)).

(** A client that is installed but cannot be executed. *)
Definition env_not_executable : env :=
  Env (fun _ _ => CannotStart "PermissionError") (Document doc_one) "y".

(** A task whose only prerequisite holds a line feed. *)
Definition task_multiline_prerequisite : task :=
  Task "T5" "Add V" "Do V" ["a" ++ nl ++ "- b"] ["V works"] "1h" [].

(** A task whose only acceptance criterion holds a line feed. *)
Definition task_multiline_criterion : task :=
  Task "T6" "Add U" "Do U" [] ["A" ++ nl ++ "- [ ] B"] "1h" [].

(** * Properties *)

(** ** Strings and monadic steps *)

Lemma append_assoc (a b c : string) : (a ++ b) ++ c = a ++ (b ++ c).
Proof.
  induction a as [|x a IH]; simpl; [reflexivity | now rewrite IH].
Qed.

Lemma append_nil_r (a : string) : a ++ "" = a.
Proof.
  induction a as [|x a IH]; simpl; [reflexivity | now rewrite IH].
Qed.

Lemma fold_left_append (f : json -> string) (items : list json) (acc : string) :
  fold_left (fun body x => body ++ f x) items acc = acc ++ join (map f items).
Proof.
  revert acc.
  induction items as [|x items IH]; intros acc; simpl.
  - now rewrite append_nil_r.
  - rewrite IH. apply append_assoc.
Qed.

Lemma lines_append (p rest : string) :
  has_newline p = false -> lines (p ++ nl ++ rest) = p :: lines rest.
Proof.
  change (nl ++ rest) with (String "010"%char rest).
  induction p as [|c p IH]; intros H.
  - reflexivity.
  - cbn [has_newline] in H. apply orb_false_elim in H as [Hc Hp].
    cbn [append lines]. rewrite Hc, (IH Hp). reflexivity.
Qed.

Lemma lines_join (prefix : string) (items : list string) :
  forallb (fun item => negb (has_newline (prefix ++ item))) items = true ->
  lines (join (map (fun item => prefix ++ item ++ nl) items))
  = map (fun item => prefix ++ item) items.
Proof.
  induction items as [|x items IH]; intros H.
  - reflexivity.
  - cbn [forallb] in H. apply andb_true_iff in H as [Hx Hrest].
    apply negb_true_iff in Hx.
    cbn [map join fold_right]. fold (join (map (fun item => prefix ++ item ++ nl) items)).
    rewrite <- (IH Hrest), <- (lines_append (prefix ++ x)) by assumption.
    now rewrite !append_assoc.
Qed.

(** ** The formatter *)

Lemma create_issue_body_renders (d : json) (t : task) :
  represents d t -> create_issue_body d = Ok (issue_body t).
Proof.
  intros (_ & _ & Hobj & Hpre & Hacc & Htime & _).
  unfold create_issue_body.
  rewrite Hobj, Hpre, Hacc, Htime. cbn [bind res_Monad ret fmt].
  assert (Hcrit : forall acc,
    fold_left (fun body criterion => body ++ "- [ ] " ++ fmt criterion ++ nl)
      (map JStr (acceptanceCriteria t)) acc = acc ++ criteria_section t).
  { intros acc.
    rewrite (fold_left_append (fun x => "- [ ] " ++ fmt x ++ nl)).
    unfold criteria_section. now rewrite map_map. }
  unfold issue_body, prerequisites_section, strs.
  destruct (prerequisites t) as [|p ps] eqn:Hp; cbn [truthy map iter bind res_Monad ret].
  - rewrite Hcrit. unfold objective_part, prerequisites_header, criteria_header,
      estimate_part, bullet, nl.
    rewrite !append_assoc. reflexivity.
  - rewrite Hcrit.
    change (fold_left (fun body prereq => body ++ "- " ++ fmt prereq ++ nl)
              (JStr p :: map JStr ps))
      with (fold_left (fun body prereq => body ++ "- " ++ fmt prereq ++ nl)
              (map JStr (p :: ps))).
    rewrite (fold_left_append (fun x => "- " ++ fmt x ++ nl)), map_map.
    change (map (fun x => "- " ++ fmt (JStr x) ++ nl) (p :: ps))
      with (map bullet (p :: ps)).
    unfold objective_part, prerequisites_header, criteria_header,
      estimate_part, nl.
    rewrite !append_assoc. reflexivity.
Qed.

Lemma fold_left_label_args (ls cmd : list json) :
  fold_left (fun cmd label => (cmd ++ [JStr "--label"; label])%list) ls cmd
  = (cmd ++ flat_map (fun label => [JStr "--label"; label]) ls)%list.
Proof.
  revert cmd.
  induction ls as [|l ls IH]; intros cmd; simpl.
  - now rewrite app_nil_r.
  - rewrite IH, <- app_assoc. reflexivity.
Qed.

Lemma label_args_strs (ls : list string) :
  flat_map (fun label => [JStr "--label"; label]) (map JStr ls)
  = flat_map (fun label => [JStr "--label"; JStr label]) ls.
Proof.
  induction ls as [|l ls IH]; simpl; [reflexivity | now rewrite IH].
Qed.

Lemma runs_app (w v : trace) :
  runs (w ++ v)%list = (runs w + runs v)%nat.
Proof. unfold runs. now rewrite filter_app, length_app. Qed.

Lemma commands_app (w v : trace) :
  commands (w ++ v)%list = (commands w ++ commands v)%list.
Proof. unfold commands. apply flat_map_app. Qed.

Lemma creation_calls_app (w v : trace) :
  creation_calls (w ++ v)%list
  = (creation_calls w ++ creation_calls v)%list.
Proof. unfold creation_calls. now rewrite commands_app, filter_app. Qed.

(** What one call of [create_issue] on a task record does, by the outcome
    of its subprocess. *)
Lemma create_issue_record (E : env) (repo d : json) (t : task) (w : trace) :
  represents d t ->
  create_issue E repo d w =
  let started := (w ++ [EPrint ("Creating issue: " ++ issue_title t);
                        ERun (issue_cmd repo t)])%list in
  match spawn E (runs w) (issue_cmd repo t) with
  | Exited r =>
      if (returncode r =? 0)%Z
      then (Ok true,
            (started ++ [EPrint ("  ✓ Created " ++ id t ++ ": "
                                 ++ strip (stdout r))])%list)
      else (Ok false,
            (started ++ [EPrint ("  ✗ Failed to create " ++ id t ++ ": "
                                 ++ stderr r)])%list)
  | NotFound => (Raise FileNotFoundError, started)
  | CannotStart why => (Raise (OtherError why), started)
  end.
Proof.
  intros R. pose proof (create_issue_body_renders d t R) as Hbody.
  destruct R as (Hid & Htitle & _ & _ & _ & _ & Hlabels).
  unfold create_issue.
  rewrite Hid, Htitle, Hbody, Hlabels.
  cbn [bind M_Monad lift fmt iter strs print emit].
  rewrite fold_left_label_args.
  rewrite label_args_strs. fold (issue_title t). fold (issue_cmd repo t).
  unfold try_except, subprocess_run.
  cbn [bind M_Monad lift fmt print emit ret].
  rewrite runs_app. cbn [runs filter is_run List.length]. rewrite Nat.add_0_r.
  destruct (spawn E (runs w) (issue_cmd repo t)) as [r| |why].
  - destruct (returncode r =? 0)%Z; cbn [andb negb];
      rewrite <- !app_assoc; reflexivity.
  - rewrite <- !app_assoc; reflexivity.
  - rewrite <- !app_assoc; reflexivity.
Qed.

Lemma creates_only_app (u v : trace) :
  creates_only u -> creates_only v -> creates_only (u ++ v)%list.
Proof.
  intros [Hu1 Hu2] [Hv1 Hv2]. split.
  - rewrite forallb_app, Hu1, Hv1. reflexivity.
  - rewrite commands_app, forallb_app, Hu2, Hv2. reflexivity.
Qed.

Lemma create_issue_events (E : env) (repo d : json) (w : trace) :
  exists evs, snd (create_issue E repo d w) = (w ++ evs)%list
              /\ creates_only evs.
Proof.
  unfold create_issue.
  destruct (getitem d "id") as [i|e]; cbn [bind M_Monad lift];
    [|exists []; rewrite app_nil_r; repeat split].
  destruct (getitem d "title") as [ti|e]; cbn [bind M_Monad lift];
    [|exists []; rewrite app_nil_r; repeat split].
  destruct (create_issue_body d) as [b|e]; cbn [bind M_Monad lift];
    [|exists []; rewrite app_nil_r; repeat split].
  destruct (getitem d "labels") as [ls|e]; cbn [bind M_Monad lift print emit];
    [|exists []; rewrite app_nil_r; repeat split].
  destruct (iter ls) as [items|e]; cbn [bind M_Monad lift];
    [|eexists [_]; repeat split].
  rewrite fold_left_label_args.
  unfold try_except, subprocess_run.
  cbn [bind M_Monad lift print emit ret].
  destruct (spawn E _ _) as [r| |why].
  - destruct (returncode r =? 0)%Z; cbn [andb negb snd];
      rewrite <- !app_assoc; eexists; repeat split.
  - cbn [snd]. rewrite <- !app_assoc; eexists; repeat split.
  - cbn [snd]. rewrite <- !app_assoc; eexists; repeat split.
Qed.

Lemma create_all_events (E : env) (repo : json) (items : list json) :
  forall created failed w,
  exists evs, snd (create_all E repo items created failed w) = (w ++ evs)%list
              /\ creates_only evs.
Proof.
  induction items as [|d items IH]; intros created failed w.
  - exists []. cbn. rewrite app_nil_r. repeat split.
  - cbn [create_all bind M_Monad].
    destruct (create_issue_events E repo d w) as (evs & Hevs & Honly).
    destruct (create_issue E repo d w) as [[ok|e] w']; cbn [snd] in Hevs; subst w'.
    + destruct ok;
        [destruct (IH (created + 1)%nat failed (w ++ evs)%list) as (evs' & H & Honly')
        |destruct (IH created (failed + 1)%nat (w ++ evs)%list) as (evs' & H & Honly')];
        rewrite H, <- app_assoc; exists (evs ++ evs')%list;
        (split; [reflexivity | now apply creates_only_app]).
    + exists evs. split; [reflexivity | assumption].
Qed.

(** ** The run, stage by stage *)

Lemma run_stages (E : env) :
  run E =
  match spawn E 0 gh_auth_status with
  | CannotStart why => (Raise (OtherError why), probed)
  | NotFound => (Raise (SystemExit 1), (probed ++ not_installed)%list)
  | Exited r =>
      if (returncode r =? 0)%Z
      then
        match load_result (issues_file E) with
        | Raise e => (Raise e, opened)
        | Ok (data, repo, tasks) =>
            match len tasks with
            | Raise e =>
                (Raise e,
                 (opened ++ [EPrint ("📦 Repository: " ++ fmt repo)])%list)
            | Ok n =>
                if String.eqb (lower (answer E)) "y"
                then
                  match iter tasks with
                  | Raise e => (Raise e, prompted repo n)
                  | Ok items =>
                      finish data repo n
                        (create_all E repo items 0 0 (prompted repo n))
                  end
                else (Ok tt, (prompted repo n ++ [EPrint "Cancelled."])%list)
            end
        end
      else (Raise (SystemExit 1), (probed ++ not_authenticated)%list)
  end.
Proof.
  unfold run, main, check_gh_cli, try_except, subprocess_run.
  cbn [bind M_Monad print emit app runs filter is_run List.length].
  destruct (spawn E 0 gh_auth_status) as [r| |why]; cbn [andb]; try reflexivity.
  destruct (returncode r =? 0)%Z; cbn [negb bind M_Monad print emit ret raise app];
    [|reflexivity].
  unfold load_issue_data, load_result.
  cbn [bind M_Monad print emit ret raise app].
  destruct (issues_file E) as [ | | |why|data]; try reflexivity.
  cbn [bind M_Monad res_Monad lift ret].
  destruct (getitem data "project") as [project|e] eqn:Hproject; [|reflexivity].
  cbn [bind M_Monad res_Monad lift ret].
  destruct (getitem project "repository") as [repo|e]; [|reflexivity].
  cbn [bind M_Monad res_Monad lift ret].
  destruct (getitem data "tasks") as [tasks|e]; [|reflexivity].
  cbn [bind M_Monad res_Monad lift ret print emit app].
  destruct (len tasks) as [n|e]; [|reflexivity].
  cbn [bind M_Monad res_Monad lift ret print emit app input].
  destruct (String.eqb (lower (answer E)) "y"); cbn [negb]; [|reflexivity].
  cbn [bind M_Monad res_Monad lift ret print emit app input].
  destruct (iter tasks) as [items|e]; [|reflexivity].
  cbn [bind M_Monad res_Monad lift ret print emit app input].
  change [EPrint ("🚀 Snes9xWasm Implementation - GitHub Issues Creator" ++ nl);
          ERun gh_auth_status; EPrint "📄 Loading issue data...";
          EOpen json_path; EPrint ("📦 Repository: " ++ fmt repo);
          EPrint ("📋 Total tasks: " ++ dec n ++ nl);
          EInput "Create all issues? (y/N): "]
    with (prompted repo n).
  destruct (create_all E repo items 0 0 (prompted repo n)) as [[[created failed]|e] w];
    [|reflexivity].
  unfold finish. rewrite Hproject.
  cbn [bind M_Monad res_Monad lift ret print emit app input fst snd summary].
  destruct (0 <? created)%nat; [|rewrite <- !app_assoc; reflexivity].
  cbn [bind M_Monad res_Monad lift ret print emit app input fst snd].
  destruct (getitem project "milestone") as [milestone|e];
    cbn [bind M_Monad res_Monad lift ret print emit app input fst snd];
    unfold print, emit; rewrite <- !app_assoc; reflexivity.
Qed.

Lemma skipn_app_exact {A} (u v : list A) : skipn (List.length u) (u ++ v) = v.
Proof.
  induction u as [|x u IH]; [reflexivity | exact IH].
Qed.

Lemma is_create_issue_cmd (repo : json) (t : task) :
  is_create (issue_cmd repo t) = true.
Proof. reflexivity. Qed.

Lemma create_issue_commands (E : env) (repo d : json) (t : task) (w : trace) :
  represents d t ->
  commands (emitted w (create_issue E repo d w)) = [issue_cmd repo t].
Proof.
  intros R. rewrite (create_issue_record E repo d t w R). cbv zeta.
  unfold emitted.
  destruct (spawn E (runs w) (issue_cmd repo t)) as [r| |why];
    [destruct (returncode r =? 0)%Z| |]; cbn [snd];
    rewrite <- ?app_assoc, skipn_app_exact; reflexivity.
Qed.

(** C6: the Issue Formatter is deterministic and free of side effects.
    [create_issue_body] is a function of the task record alone (it takes
    no environment and no trace), and for every task record the title and
    the body that [create_issue] hands to the client are
    ["[<id>] <title>"] and the rendered body, whatever the environment,
    the repository and the history of the run: two calls on the same
    record produce identical (title, body) pairs. *)
Theorem formatter_deterministic (d : json) (t : task) :
  represents d t ->
  create_issue_body d = Ok (issue_body t) /\
  forall (E1 E2 : env) (repo1 repo2 : json) (w1 w2 : trace),
    formatted (emitted w1 (create_issue E1 repo1 d w1))
    = [(JStr ("[" ++ id t ++ "] " ++ title t), JStr (issue_body t))] /\
    formatted (emitted w1 (create_issue E1 repo1 d w1))
    = formatted (emitted w2 (create_issue E2 repo2 d w2)).
Proof.
  intros R. split; [now apply create_issue_body_renders|].
  assert (H : forall E repo w,
             formatted (emitted w (create_issue E repo d w))
             = [(JStr (issue_title t), JStr (issue_body t))]).
  { intros E repo w. unfold formatted, creation_calls.
    rewrite (create_issue_commands E repo d t w R).
    cbn [filter]. rewrite is_create_issue_cmd. reflexivity. }
  intros E1 E2 repo1 repo2 w1 w2. split.
  - apply H.
  - now rewrite !H.
Qed.

(** C7, as the code has it: for a task record whose prerequisites hold no
    line feed, the Prerequisites section of the rendered body (the text
    between the header [## Prerequisites] and the blank line before
    [## Acceptance Criteria]) consists of the single bullet line [- None]
    when the prerequisite sequence is empty, and of exactly k bullet
    lines [- <prerequisite>], one per prerequisite, in source order, when
    it has length k > 0. *)
Theorem prerequisites_section_bullets (d : json) (t : task) :
  represents d t ->
  forallb (fun p => negb (has_newline p)) (prerequisites t) = true ->
  exists section : string,
    create_issue_body d
    = Ok (objective_part t ++ prerequisites_header ++ section
          ++ nl ++ criteria_header ++ criteria_section t
          ++ estimate_part t ++ body_footer) /\
    (prerequisites t = [] -> lines section = ["- None"]) /\
    (forall k, List.length (prerequisites t) = k -> (0 < k)%nat ->
       lines section = map (append "- ") (prerequisites t) /\
       List.length (lines section) = k).
Proof.
  intros R Hsingle. exists (prerequisites_section t).
  split; [exact (create_issue_body_renders d t R)|].
  unfold prerequisites_section. split.
  - intros ->. reflexivity.
  - intros k Hk Hpos.
    destruct (prerequisites t) as [|p ps] eqn:Hp; [cbn in Hk; lia|].
    assert (Hlines : lines (join (map bullet (p :: ps)))
                     = map (append "- ") (p :: ps)).
    { apply (lines_join "- ").
      clear - Hsingle. induction (p :: ps) as [|x l IH]; [reflexivity|].
      cbn [forallb] in *. apply andb_true_iff in Hsingle as [Hx Hl].
      rewrite (IH Hl), andb_true_r. exact Hx. }
    split; [exact Hlines|]. now rewrite Hlines, length_map.
Qed.

(** C8, as the code has it: for a task record whose acceptance criteria
    hold no line feed, the rendered body carries, immediately after the
    header [## Acceptance Criteria], one unchecked checklist line
    [- [ ] <criterion>] per acceptance criterion, in source order, and
    nothing else before the blank line that ends the section; for the
    criteria A, B these are the two lines [- [ ] A] and [- [ ] B]. *)
Theorem acceptance_criteria_checklist (d : json) (t : task) :
  represents d t ->
  forallb (fun c => negb (has_newline c)) (acceptanceCriteria t) = true ->
  exists checklist : string,
    create_issue_body d
    = Ok (objective_part t ++ prerequisites_header ++ prerequisites_section t
          ++ nl ++ ("## Acceptance Criteria" ++ nl) ++ checklist
          ++ (nl ++ "## Time Estimate" ++ nl ++ timeEstimate t ++ nl)
          ++ body_footer) /\
    lines (("## Acceptance Criteria" ++ nl) ++ checklist)
    = "## Acceptance Criteria"
      :: map (append "- [ ] ") (acceptanceCriteria t) /\
    List.length (lines checklist) = List.length (acceptanceCriteria t) /\
    (acceptanceCriteria t = ["A"; "B"] ->
     lines (("## Acceptance Criteria" ++ nl) ++ checklist)
     = ["## Acceptance Criteria"; "- [ ] A"; "- [ ] B"]).
Proof.
  intros R Hsingle. exists (criteria_section t).
  split; [exact (create_issue_body_renders d t R)|].
  assert (Hchecks : lines (criteria_section t)
                    = map (append "- [ ] ") (acceptanceCriteria t)).
  { apply (lines_join "- [ ] ").
    clear - Hsingle.
    induction (acceptanceCriteria t) as [|x l IH]; [reflexivity|].
    cbn [forallb] in *. apply andb_true_iff in Hsingle as [Hx Hl].
    rewrite (IH Hl), andb_true_r. exact Hx. }
  assert (H : lines (("## Acceptance Criteria" ++ nl) ++ criteria_section t)
              = "## Acceptance Criteria"
                :: map (append "- [ ] ") (acceptanceCriteria t)).
  { rewrite append_assoc.
    rewrite (lines_append "## Acceptance Criteria") by reflexivity.
    now rewrite Hchecks. }
  split; [exact H|]. split; [now rewrite Hchecks, length_map|].
  intros Hab. rewrite H, Hab. reflexivity.
Qed.

(** C10: the issue body does not depend on the identifier, the title or
    the labels of the task.  Two task dicts that agree on [objective],
    [prerequisites], [acceptanceCriteria] and [timeEstimate] give the
    same result of [create_issue_body]; and in the command line built for
    a task record the identifier and the title occur only in the
    [--title] argument and the labels only in the [--label] arguments. *)
Theorem body_independent_of_id_title_labels (d1 d2 : json) :
  getitem d1 "objective" = getitem d2 "objective" ->
  getitem d1 "prerequisites" = getitem d2 "prerequisites" ->
  getitem d1 "acceptanceCriteria" = getitem d2 "acceptanceCriteria" ->
  getitem d1 "timeEstimate" = getitem d2 "timeEstimate" ->
  create_issue_body d1 = create_issue_body d2 /\
  forall (t1 t2 : task) (E : env) (repo : json) (w : trace),
    represents d1 t1 -> represents d2 t2 ->
    exists body : string,
      create_issue_body d1 = Ok body /\
      commands (emitted w (create_issue E repo d1 w))
      = [([ JStr "gh"; JStr "issue"; JStr "create"; JStr "--repo"; repo;
            JStr "--title"; JStr ("[" ++ id t1 ++ "] " ++ title t1);
            JStr "--body"; JStr body; JStr "--assignee"; JStr "@me" ]
          ++ flat_map (fun l => [JStr "--label"; JStr l]) (labels t1))%list] /\
      commands (emitted w (create_issue E repo d2 w))
      = [([ JStr "gh"; JStr "issue"; JStr "create"; JStr "--repo"; repo;
            JStr "--title"; JStr ("[" ++ id t2 ++ "] " ++ title t2);
            JStr "--body"; JStr body; JStr "--assignee"; JStr "@me" ]
          ++ flat_map (fun l => [JStr "--label"; JStr l]) (labels t2))%list].
Proof.
  intros Hobj Hpre Hacc Htime.
  assert (Heq : create_issue_body d1 = create_issue_body d2).
  { unfold create_issue_body. now rewrite Hobj, Hpre, Hacc, Htime. }
  split; [exact Heq|].
  intros t1 t2 E repo w R1 R2. exists (issue_body t1).
  pose proof (create_issue_body_renders d1 t1 R1) as H1.
  pose proof (create_issue_body_renders d2 t2 R2) as H2.
  assert (Hbody : issue_body t2 = issue_body t1) by congruence.
  split; [exact H1|]. split.
  - now rewrite (create_issue_commands E repo d1 t1 w R1).
  - rewrite (create_issue_commands E repo d2 t2 w R2).
    unfold issue_cmd. now rewrite Hbody.
Qed.

(** ** The preflight check *)

(** C9, as the code has it: the Preflight Checker returns a boolean,
    without raising, when the client is absent, when its status
    subcommand exits non-zero and when it exits zero ([True] exactly in
    the last case), and on the two failing outcomes it prints a
    diagnostic that names the missing step (install the client, or run
    [gh auth login]); it never ends the run itself.  It catches only
    [FileNotFoundError]: a client that cannot be started for another
    reason makes it raise that exception, without a diagnostic. *)
Theorem check_gh_cli_returns_boolean (E : env) (w : trace) :
  match spawn E (runs w) gh_auth_status with
  | NotFound =>
      check_gh_cli E w
      = (Ok false, (w ++ ERun gh_auth_status :: not_installed)%list)
  | Exited r =>
      if (returncode r =? 0)%Z
      then check_gh_cli E w = (Ok true, (w ++ [ERun gh_auth_status])%list)
      else check_gh_cli E w
           = (Ok false, (w ++ ERun gh_auth_status :: not_authenticated)%list)
  | CannotStart why =>
      check_gh_cli E w
      = (Raise (OtherError why), (w ++ [ERun gh_auth_status])%list)
  end.
Proof.
  unfold check_gh_cli, try_except, subprocess_run.
  cbn [bind M_Monad andb].
  destruct (spawn E (runs w) gh_auth_status) as [r| |why].
  - destruct (returncode r =? 0)%Z; cbn [negb ret M_Monad bind print emit];
      [reflexivity | now rewrite <- app_assoc].
  - cbn [ret M_Monad bind print emit]. now rewrite <- !app_assoc.
  - reflexivity.
Qed.

(** ** The batch runner *)

Lemma lower_ascii_y (c : ascii) :
  lower_ascii c = "y"%char -> c = "y"%char \/ c = "Y"%char.
Proof.
  destruct c as [[] [] [] [] [] [] [] []]; vm_compute; intros H;
    first [discriminate H | now left | now right].
Qed.

Lemma lower_is_y (s : string) :
  String.eqb (lower s) "y" = true <-> s = "y" \/ s = "Y".
Proof.
  split.
  - intros H. apply String.eqb_eq in H.
    destruct s as [|c [|c' s']]; cbn [lower] in H; try discriminate H.
    injection H as Hc. destruct (lower_ascii_y c Hc) as [-> | ->]; auto.
  - intros [-> | ->]; reflexivity.
Qed.

(** C4: when the prompt is reached (the preflight has passed and the
    task file has loaded) and the line typed is neither [y] nor [Y], the
    run is cancelled: after the seven events up to the prompt it prints
    [Cancelled.] and returns normally, no issue-creation call is made, and
    the process exits with status 0.  No answer other than [y] or [Y]
    leads to a creation call on any run. *)
Theorem declined_confirmation_cancels
    (E : env) (data repo tasks : json) (n : nat) :
  preflight_passes E = true ->
  load_result (issues_file E) = Ok (data, repo, tasks) ->
  len tasks = Ok n ->
  answer E <> "y" -> answer E <> "Y" ->
  run E = (Ok tt, (prompted repo n ++ [EPrint "Cancelled."])%list) /\
  creation_calls (snd (run E)) = [] /\
  exit_code (fst (run E)) = 0%Z /\
  (forall E' : env,
     answer E' = answer E -> creation_calls (snd (run E')) = []).
Proof.
  intros Hpre Hload Hlen Hy HY.
  assert (Hno : forall E' : env, answer E' = answer E ->
                  String.eqb (lower (answer E')) "y" = false).
  { intros E' Hsame. rewrite Hsame.
    destruct (String.eqb (lower (answer E)) "y") eqn:Hl; [|reflexivity].
    apply lower_is_y in Hl. destruct Hl; contradiction. }
  assert (Hrun : run E
                 = (Ok tt, (prompted repo n ++ [EPrint "Cancelled."])%list)).
  { unfold preflight_passes in Hpre. rewrite run_stages.
    destruct (spawn E 0 gh_auth_status) as [r| |why]; try discriminate Hpre.
    now rewrite Hpre, Hload, Hlen, (Hno E eq_refl). }
  split; [exact Hrun|]. rewrite Hrun.
  split; [reflexivity|]. split; [reflexivity|].
  intros E' Hsame. rewrite run_stages, (Hno E' Hsame).
  destruct (spawn E' 0 gh_auth_status) as [r| |why];
    [destruct (returncode r =? 0)%Z| |]; try reflexivity.
  destruct (load_result (issues_file E')) as [[[data' repo'] tasks']|e];
    [|reflexivity].
  destruct (len tasks') as [n'|e]; reflexivity.
Qed.

Lemma getitem_errors (v : json) (key : string) :
  raises_errors_only (getitem v key).
Proof.
  intros e. unfold getitem.
  destruct v as [ | | | | | |kvs]; try (intros [= <-]; reflexivity).
  destruct (dict_get kvs key); [discriminate | intros [= <-]; reflexivity].
Qed.

Lemma iter_errors (v : json) : raises_errors_only (iter v).
Proof.
  intros e. destruct v; cbn; first [discriminate | intros [= <-]; reflexivity].
Qed.

Lemma len_errors (v : json) : raises_errors_only (len v).
Proof.
  intros e. destruct v; cbn; first [discriminate | intros [= <-]; reflexivity].
Qed.

Lemma bind_errors {A B} (m : res A) (k : A -> res B) :
  raises_errors_only m -> (forall a, raises_errors_only (k a)) ->
  raises_errors_only (bind m k).
Proof.
  intros Hm Hk e. destruct m as [a|e']; cbn.
  - apply Hk.
  - intros [= <-]. now apply Hm.
Qed.

Lemma create_issue_body_errors (d : json) :
  raises_errors_only (create_issue_body d).
Proof.
  unfold create_issue_body.
  repeat first
    [ apply bind_errors; [|intros ?]
    | apply getitem_errors | apply iter_errors
    | match goal with |- raises_errors_only (if ?c then _ else _) =>
        destruct c end
    | (intros ? ?; discriminate) ].
Qed.

Lemma load_result_errors (f : file_state) :
  raises_errors_only (load_result f).
Proof.
  destruct f as [ | | |why|data]; try (intros e [= <-]; reflexivity).
  unfold load_result.
  repeat first
    [ apply bind_errors; [|intros ?]
    | apply getitem_errors
    | (intros ? ?; discriminate) ].
Qed.

Lemma create_issue_errors (E : env) (repo d : json) (w : trace) :
  raises_errors_only (fst (create_issue E repo d w)).
Proof.
  unfold create_issue.
  destruct (getitem d "id") as [i|e] eqn:Hi; cbn [bind M_Monad lift fst];
    [|intros e0 [= <-]; exact (getitem_errors d "id" e Hi)].
  destruct (getitem d "title") as [ti|e] eqn:Ht; cbn [bind M_Monad lift fst];
    [|intros e0 [= <-]; exact (getitem_errors d "title" e Ht)].
  destruct (create_issue_body d) as [b|e] eqn:Hb; cbn [bind M_Monad lift fst];
    [|intros e0 [= <-]; exact (create_issue_body_errors d e Hb)].
  destruct (getitem d "labels") as [ls|e] eqn:Hl;
    cbn [bind M_Monad lift print emit fst];
    [|intros e0 [= <-]; exact (getitem_errors d "labels" e Hl)].
  destruct (iter ls) as [items|e] eqn:Hit; cbn [bind M_Monad lift fst];
    [|intros e0 [= <-]; exact (iter_errors ls e Hit)].
  unfold try_except, subprocess_run.
  cbn [bind M_Monad lift print emit ret].
  destruct (spawn E _ _) as [r| |why].
  - destruct (returncode r =? 0)%Z; cbn [andb negb fst]; intros e'; discriminate.
  - intros e' [= <-]. reflexivity.
  - intros e' [= <-]. reflexivity.
Qed.

Lemma create_all_errors (E : env) (repo : json) (items : list json) :
  forall created failed w,
    raises_errors_only (fst (create_all E repo items created failed w)).
Proof.
  induction items as [|d items IH]; intros created failed w.
  - intros e. discriminate.
  - cbn [create_all bind M_Monad].
    pose proof (create_issue_errors E repo d w) as H.
    destruct (create_issue E repo d w) as [[[|]|e] w']; cbn [fst] in *.
    + apply IH.
    + apply IH.
    + intros e0 [= <-]. now apply H.
Qed.

Lemma finish_result (data repo : json) (total : nat)
    (looped : res (nat * nat) * trace) :
  raises_errors_only (fst looped) ->
  raises_errors_only (fst (finish data repo total looped)).
Proof.
  intros H. unfold finish.
  destruct looped as [[[created failed]|e] w];
    [|intros e0 [= <-]; now apply H].
  destruct (0 <? created)%nat; [|intros e; discriminate].
  destruct (getitem data "project") as [project|e] eqn:Hp; cbn [bind res_Monad].
  - destruct (getitem project "milestone") as [m|e] eqn:Hm.
    + intros e; discriminate.
    + intros e0 [= <-]. exact (getitem_errors project "milestone" e Hm).
  - intros e0 [= <-]. exact (getitem_errors data "project" e Hp).
Qed.

Lemma finish_events (data repo : json) (total : nat)
    (looped : res (nat * nat) * trace) :
  exists tail, snd (finish data repo total looped) = (snd looped ++ tail)%list
               /\ creation_calls tail = [].
Proof.
  unfold finish.
  destruct looped as [[[created failed]|e] w]; cbn [snd].
  - destruct (0 <? created)%nat.
    + destruct (project <- getitem data "project" ;; getitem project "milestone")
        as [m|e]; cbn [snd]; rewrite <- app_assoc;
        eexists; split; reflexivity.
    + eexists; split; reflexivity.
  - exists []. now rewrite app_nil_r.
Qed.

Lemma exit_code_error (e : exn) :
  is_error e = true -> exit_code (Raise e) = 1%Z.
Proof. destruct e; cbn; intros H; first [reflexivity | discriminate H]. Qed.

(** The result of a run whose preflight did not fail is a normal return
    or an exception other than [SystemExit]. *)
Lemma run_errors (E : env) :
  preflight_fails E = false -> raises_errors_only (fst (run E)).
Proof.
  unfold preflight_fails. rewrite run_stages.
  destruct (spawn E 0 gh_auth_status) as [r| |why]; try discriminate.
  - destruct (returncode r =? 0)%Z; [intros _|discriminate].
    pose proof (load_result_errors (issues_file E)) as Hload.
    destruct (load_result (issues_file E)) as [[[data repo] tasks]|e].
    + pose proof (len_errors tasks) as Hlen.
      destruct (len tasks) as [n|e].
      * destruct (String.eqb (lower (answer E)) "y"); [|intros e; discriminate].
        pose proof (iter_errors tasks) as Hiter.
        destruct (iter tasks) as [items|e].
        -- apply finish_result, create_all_errors.
        -- intros e0 [= <-]. now apply Hiter.
      * intros e0 [= <-]. now apply Hlen.
    + intros e0 [= <-]. now apply Hload.
  - intros _ e [= <-]. reflexivity.
Qed.

Lemma run_preflight_failed (E : env) :
  preflight_fails E = true ->
  fst (run E) = Raise (SystemExit 1) /\ creation_calls (snd (run E)) = [].
Proof.
  unfold preflight_fails. rewrite run_stages.
  destruct (spawn E 0 gh_auth_status) as [r| |why]; try discriminate.
  - destruct (returncode r =? 0)%Z; [discriminate|]. intros _. split; reflexivity.
  - intros _. split; reflexivity.
Qed.

(** C5, as the code has it: whenever the preflight check fails (the client
    is missing or its status subcommand exits non-zero) no issue-creation
    call is made and the process exits with status 1.  Exit status 1
    occurs only then or when an uncaught exception ends the run; on every
    other path the process exits with status 0. *)
Theorem preflight_failure_exits_1 (E : env) :
  (preflight_fails E = true ->
   creation_calls (snd (run E)) = [] /\ exit_code (fst (run E)) = 1%Z) /\
  (exit_code (fst (run E)) = 1%Z ->
   preflight_fails E = true \/
   exists e, fst (run E) = Raise e /\ is_error e = true) /\
  (preflight_fails E = false ->
   (forall e, fst (run E) = Raise e -> is_error e = false) ->
   exit_code (fst (run E)) = 0%Z).
Proof.
  split; [|split].
  - intros H. destruct (run_preflight_failed E H) as [Hr Hc].
    rewrite Hr, Hc. split; reflexivity.
  - intros Hexit. destruct (preflight_fails E) eqn:Hpre; [now left | right].
    pose proof (run_errors E Hpre) as Herr.
    destruct (fst (run E)) as [[]|e]; [discriminate Hexit|].
    exists e. split; [reflexivity | now apply Herr].
  - intros Hpre Hnone. pose proof (run_errors E Hpre) as Herr.
    destruct (fst (run E)) as [[]|e]; [reflexivity|].
    specialize (Herr e eq_refl). specialize (Hnone e eq_refl). congruence.
Qed.

(** C1, as the code has it: if the task file is missing, unreadable or
    not parseable, or the document lacks [project], [project.repository]
    or [tasks], the load fails with an exception (whatever [open],
    [json.load] or the lookup raises: the script has no DataLoadError),
    no issue-creation call is made and the process exits with status 1;
    when the preflight has passed, the run stops with that exception
    right after opening the file. *)
Theorem load_failure_aborts_before_creation (E : env) (e : exn) :
  load_result (issues_file E) = Raise e ->
  creation_calls (snd (run E)) = [] /\
  exit_code (fst (run E)) = 1%Z /\
  (preflight_passes E = true -> run E = (Raise e, opened)).
Proof.
  intros Hload.
  pose proof (load_result_errors _ e Hload) as He.
  unfold preflight_passes. rewrite run_stages, Hload.
  split; [|split].
  - destruct (spawn E 0 gh_auth_status) as [r| |why];
      [destruct (returncode r =? 0)%Z| |]; reflexivity.
  - destruct (spawn E 0 gh_auth_status) as [r| |why];
      [destruct (returncode r =? 0)%Z| |];
      cbn [fst]; first [now apply exit_code_error | reflexivity].
  - destruct (spawn E 0 gh_auth_status) as [r| |why]; try discriminate.
    now intros ->.
Qed.

(** A trace that ends before the prompt, and one that holds the seven
    events up to the prompt. *)
Ltac stopped_early :=
  split; [|split; [|split; [|split]]]; try reflexivity;
  intros j Hj; discriminate Hj.

Ltac reached_prompt :=
  split; [|split; [|split; [|split]]]; try reflexivity;
  intros j Hj; cbn in Hj; injection Hj as <-; split; [reflexivity | lia].

(** C2, as the code has it: in every run the Preflight Checker runs
    before the Task Source Loader.  The probe of the client is the first
    thing the program does after its banner; the task file is opened only
    when the probe has passed, and then after it; and the confirmation
    prompt, when it is reached, comes after both. *)
Theorem preflight_runs_before_loader (E : env) :
  first_index is_preflight (snd (run E)) = Some 1%nat /\
  first_index is_run (snd (run E)) = Some 1%nat /\
  first_index is_open (snd (run E))
  = (if preflight_passes E then Some 3%nat else None) /\
  (forall j, first_index is_input (snd (run E)) = Some j ->
             first_index is_open (snd (run E)) = Some 3%nat /\ (3 < j)%nat) /\
  loader_first (snd (run E)) = false.
Proof.
  unfold loader_first, preflight_passes. rewrite run_stages.
  destruct (spawn E 0 gh_auth_status) as [r| |why];
    [destruct (returncode r =? 0)%Z| |]; try stopped_early.
  destruct (load_result (issues_file E)) as [[[data repo] tasks]|e];
    [|stopped_early].
  destruct (len tasks) as [n|e]; [|stopped_early].
  destruct (String.eqb (lower (answer E)) "y"); [|reached_prompt].
  destruct (iter tasks) as [items|e]; [|reached_prompt].
  destruct (finish_events data repo n
              (create_all E repo items 0 0 (prompted repo n)))
    as (tail & -> & _).
  destruct (create_all_events E repo items 0 0 (prompted repo n))
    as (evs & -> & _).
  reached_prompt.
Qed.

Lemma succeeded_failures (codes : list Z) :
  (succeeded codes + failures codes)%nat = List.length codes.
Proof.
  unfold succeeded, failures.
  induction codes as [|c codes IH]; [reflexivity|].
  cbn [filter]. destruct (c =? 0)%Z; cbn [negb List.length]; lia.
Qed.

Lemma create_all_records (E : env) (repo : json)
    (records : list json) (ts : list task) :
  Forall2 represents records ts ->
  forall (codes : list Z) (created failed : nat) (w : trace),
    List.length codes = List.length ts ->
    (forall i, (i < List.length ts)%nat ->
               exits_with E (runs w + i) (nth i codes 0%Z)) ->
    exists evs,
      create_all E repo records created failed w
      = (Ok ((created + succeeded codes)%nat, (failed + failures codes)%nat),
         (w ++ evs)%list) /\
      commands evs = map (issue_cmd repo) ts.
Proof.
  induction 1 as [|d t records ts R _ IH]; intros codes created failed w Hlen Hexit.
  - destruct codes; [|discriminate Hlen].
    exists []. cbn. rewrite app_nil_r, !Nat.add_0_r. split; reflexivity.
  - destruct codes as [|c codes]; [discriminate Hlen|].
    cbn [create_all bind M_Monad].
    rewrite (create_issue_record E repo d t w R). cbv zeta.
    destruct (Hexit 0%nat ltac:(cbn; lia) (issue_cmd repo t)) as (r & Hr & Hc).
    rewrite Nat.add_0_r in Hr. cbn [nth] in Hc. rewrite Hr, Hc.
    unfold succeeded, failures. cbn [filter].
    destruct (c =? 0)%Z; cbn [negb List.length].
    + match goal with |- context [create_all E repo records ?c' ?f' ?w'] =>
        destruct (IH codes c' f' w') as (evs & Hevs & Hcmds) end.
      * cbn in Hlen. lia.
      * intros i Hi. rewrite !runs_app. cbn [runs filter is_run List.length].
        replace (runs w + 1 + 0 + i)%nat with (runs w + S i)%nat by lia.
        apply (Hexit (S i)). cbn. lia.
      * rewrite Hevs. eexists. split.
        -- f_equal; [do 2 f_equal; unfold succeeded, failures; lia|].
           rewrite <- !app_assoc. reflexivity.
        -- rewrite !commands_app, Hcmds. reflexivity.
    + match goal with |- context [create_all E repo records ?c' ?f' ?w'] =>
        destruct (IH codes c' f' w') as (evs & Hevs & Hcmds) end.
      * cbn in Hlen. lia.
      * intros i Hi. rewrite !runs_app. cbn [runs filter is_run List.length].
        replace (runs w + 1 + 0 + i)%nat with (runs w + S i)%nat by lia.
        apply (Hexit (S i)). cbn. lia.
      * rewrite Hevs. eexists. split.
        -- f_equal; [do 2 f_equal; unfold succeeded, failures; lia|].
           rewrite <- !app_assoc. reflexivity.
        -- rewrite !commands_app, Hcmds. reflexivity.
Qed.

Lemma filter_issue_cmds (repo : json) (ts : list task) :
  filter is_create (map (issue_cmd repo) ts) = map (issue_cmd repo) ts.
Proof.
  induction ts as [|t ts IH]; [reflexivity|].
  cbn [map filter]. rewrite is_create_issue_cmd, IH. reflexivity.
Qed.

(** C3: a failed creation does not halt the batch.  On a confirmed run
    over a loaded list of task records, whatever the exit statuses of the
    creation calls, every task is attempted, in source order; the summary
    reports as created the number of zero exits, as failed the number of
    non-zero exits and as total the number of tasks, so that created +
    failed = total; and the process exits with status 0. *)
Theorem batch_continues_after_failures
    (E : env) (data : json) (repo milestone : string)
    (records : list json) (ts : list task) (codes : list Z) :
  preflight_passes E = true ->
  issues_file E = Document data ->
  document data repo milestone records ->
  Forall2 represents records ts ->
  answer E = "y" \/ answer E = "Y" ->
  List.length codes = List.length ts ->
  (forall i, (i < List.length ts)%nat ->
             exits_with E (S i) (nth i codes 0%Z)) ->
  creation_calls (snd (run E)) = map (issue_cmd (JStr repo)) ts /\
  (exists evs guidance,
     snd (run E)
     = (prompted (JStr repo) (List.length ts) ++ evs
        ++ summary (succeeded codes) (failures codes) (List.length ts)
        ++ guidance)%list /\
     creation_calls guidance = []) /\
  (succeeded codes + failures codes)%nat = List.length ts /\
  fst (run E) = Ok tt /\
  exit_code (fst (run E)) = 0%Z.
Proof.
  intros Hpre Hfile (project & Hproject & Hrepo & Hmilestone & Htasks)
         Hrecords Hanswer Hlen Hexit.
  pose proof (Forall2_length Hrecords) as Hn.
  apply lower_is_y in Hanswer.
  unfold preflight_passes in Hpre. rewrite run_stages.
  destruct (spawn E 0 gh_auth_status) as [r| |why]; try discriminate Hpre.
  rewrite Hpre, Hfile. unfold load_result.
  rewrite Hproject. cbn [bind res_Monad]. rewrite Hrepo. cbn [bind res_Monad].
  rewrite Htasks. cbn [bind res_Monad ret len iter]. rewrite Hanswer, Hn.
  destruct (create_all_records E (JStr repo) records ts Hrecords codes 0 0
              (prompted (JStr repo) (List.length ts)) Hlen)
    as (evs & Hloop & Hcmds).
  { intros i Hi. exact (Hexit i Hi). }
  rewrite Hloop. unfold finish. rewrite Hproject. cbn [bind res_Monad].
  rewrite Hmilestone. cbn [Nat.add].
  assert (Hcalls : forall guidance, creation_calls guidance = [] ->
            creation_calls
              ((prompted (JStr repo) (List.length ts) ++ evs)
               ++ summary (succeeded codes) (failures codes) (List.length ts)
               ++ guidance)%list
            = map (issue_cmd (JStr repo)) ts).
  { intros guidance Hg.
    rewrite !creation_calls_app, Hg.
    change (creation_calls (prompted (JStr repo) (List.length ts)))
      with (@nil (list json)).
    change (creation_calls (summary (succeeded codes) (failures codes)
                              (List.length ts)))
      with (@nil (list json)).
    unfold creation_calls. rewrite Hcmds, filter_issue_cmds.
    cbn [app]. now rewrite app_nil_r. }
  rewrite succeeded_failures.
  destruct (0 <? succeeded codes)%nat; cbn [fst snd].
  - split.
    + rewrite <- (Hcalls (next_steps (JStr repo)
                          ++ milestone_steps (JStr milestone))%list eq_refl).
      now rewrite <- !app_assoc.
    + split; [|auto].
      exists evs, (next_steps (JStr repo) ++ milestone_steps (JStr milestone))%list.
      split; [now rewrite <- !app_assoc | reflexivity].
  - split.
    + rewrite <- (Hcalls [] eq_refl). now rewrite !app_nil_r.
    + split; [|auto].
      exists evs, []. split; [now rewrite app_nil_r, <- !app_assoc | reflexivity].
Qed.

(** ** The formatter on arbitrary documents *)

Lemma getitem_raises (v : json) (key : string) (e : exn) :
  getitem v key = Raise e -> e = TypeError \/ e = KeyError key.
Proof.
  unfold getitem.
  destruct v as [ | | | | | |kvs]; try (intros [= <-]; now left).
  destruct (dict_get kvs key); [discriminate | intros [= <-]; now right].
Qed.

Lemma iter_raises (v : json) (e : exn) : iter v = Raise e -> e = TypeError.
Proof.
  destruct v; cbn; first [discriminate | now intros [= <-]].
Qed.

Lemma create_issue_body_rendered (d o p a te : json) (ps cs : list json) :
  getitem d "objective" = Ok o ->
  getitem d "prerequisites" = Ok p ->
  (truthy p = true -> iter p = Ok ps) ->
  getitem d "acceptanceCriteria" = Ok a ->
  iter a = Ok cs ->
  getitem d "timeEstimate" = Ok te ->
  create_issue_body d = Ok (rendered o p ps cs te).
Proof.
  intros Ho Hp Hps Ha Hcs Hte.
  unfold create_issue_body, rendered.
  rewrite Ho, Hp, Ha, Hte. cbn [bind res_Monad ret].
  rewrite Hcs.
  destruct (truthy p).
  - rewrite (Hps eq_refl). cbn [bind res_Monad ret].
    rewrite (fold_left_append (fun x => "- [ ] " ++ fmt x ++ nl)).
    rewrite (fold_left_append (fun x => "- " ++ fmt x ++ nl)).
    unfold nl. rewrite !append_assoc. reflexivity.
  - cbn [bind res_Monad ret].
    rewrite (fold_left_append (fun x => "- [ ] " ++ fmt x ++ nl)).
    unfold nl. rewrite !append_assoc. reflexivity.
Qed.

(** X1: [create_issue_body] fails only on the four fields it reads.  On a
    value that is not a dict it raises [TypeError]; on a dict without
    [objective] it raises [KeyError('objective')] whatever else is
    missing; and any exception it raises is [TypeError] or the [KeyError]
    of one of [objective], [prerequisites], [acceptanceCriteria],
    [timeEstimate]: the fields [id], [title] and [labels] are never
    looked at. *)
Theorem create_issue_body_failures (d : json) :
  ((forall kvs, d <> JObj kvs) -> create_issue_body d = Raise TypeError) /\
  (forall kvs, d = JObj kvs -> dict_get kvs "objective" = None ->
               create_issue_body d = Raise (KeyError "objective")) /\
  (forall e, create_issue_body d = Raise e ->
             e = TypeError \/ exists key, In key body_fields /\ e = KeyError key).
Proof.
  split; [|split].
  - intros Hd. unfold create_issue_body.
    destruct d as [ | | | | | |kvs]; try reflexivity.
    now destruct (Hd kvs).
  - intros kvs -> Hnone. unfold create_issue_body, getitem.
    now rewrite Hnone.
  - intros e. unfold create_issue_body, body_fields.
    destruct (getitem d "objective") as [o|e1] eqn:Ho; cbn [bind res_Monad];
      [|intros [= <-]; destruct (getitem_raises _ _ _ Ho) as [-> | ->];
        [now left | right; eexists; split; [|reflexivity]; cbn; auto]].
    destruct (getitem d "prerequisites") as [p|e1] eqn:Hp; cbn [bind res_Monad];
      [|intros [= <-]; destruct (getitem_raises _ _ _ Hp) as [-> | ->];
        [now left | right; eexists; split; [|reflexivity]; cbn; auto]].
    assert (Hloop : forall (body : res string) (k : string -> res string),
              (forall e', body = Raise e' -> e' = TypeError) ->
              (forall b e', k b = Raise e' ->
                 e' = TypeError \/
                 exists key, In key body_fields /\ e' = KeyError key) ->
              bind body k = Raise e ->
              e = TypeError \/ exists key, In key body_fields /\ e = KeyError key).
    { intros body k Hbody Hk. destruct body as [b|e']; cbn [bind res_Monad].
      - apply Hk.
      - intros [= <-]. left. now apply Hbody. }
    apply Hloop.
    + destruct (truthy p); cbn [bind res_Monad ret]; [|discriminate].
      intros e'. destruct (iter p) as [ps|e2] eqn:Hit; cbn [bind res_Monad ret];
        [discriminate | intros [= <-]; now apply (iter_raises p)].
    + intros b e'.
      destruct (getitem d "acceptanceCriteria") as [a|e1] eqn:Ha;
        cbn [bind res_Monad];
        [|intros [= <-]; destruct (getitem_raises _ _ _ Ha) as [-> | ->];
          [now left | right; eexists; split; [|reflexivity]; cbn; auto]].
      destruct (iter a) as [cs|e2] eqn:Hit; cbn [bind res_Monad];
        [|intros [= <-]; left; now apply (iter_raises a)].
      destruct (getitem d "timeEstimate") as [te|e1] eqn:Hte;
        cbn [bind res_Monad ret];
        [discriminate
        |intros [= <-]; destruct (getitem_raises _ _ _ Hte) as [-> | ->];
          [now left | right; eexists; split; [|reflexivity]; cbn; auto]].
Qed.

Lemma chars_nonempty (s : string) : s <> "" -> chars s <> [].
Proof.
  destruct s as [|c rest]; [congruence|]. intros _. cbn [chars].
  destruct (chars rest) as [|[|c' hd] tl]; try discriminate.
  destruct (byte_in 128 191 c'); discriminate.
Qed.

Lemma map_bullet_strs (prefix : string) (items : list string) :
  map (fun x => prefix ++ fmt x ++ nl) (map JStr items)
  = map (fun item => prefix ++ item ++ nl) items.
Proof. rewrite map_map. reflexivity. Qed.

(** X2: a prerequisites value that is false in a condition ([null],
    [false], [0], [0.0], the empty string, list or dict) renders as the
    single bullet [- None], exactly like the empty list. *)
Theorem falsy_prerequisites_render_none (d p : json) (t : task) :
  getitem d "objective" = Ok (JStr (objective t)) ->
  getitem d "prerequisites" = Ok p ->
  truthy p = false ->
  getitem d "acceptanceCriteria" = Ok (strs (acceptanceCriteria t)) ->
  getitem d "timeEstimate" = Ok (JStr (timeEstimate t)) ->
  prerequisites t = [] ->
  create_issue_body d = Ok (issue_body t) /\
  prerequisites_section t = "- None" ++ nl.
Proof.
  intros Ho Hp Hfalse Ha Hte Hnil.
  rewrite (create_issue_body_rendered d _ p _ _ [] _ Ho Hp
             ltac:(congruence) Ha eq_refl Hte).
  unfold rendered, issue_body, prerequisites_section, criteria_section,
    objective_part, prerequisites_header, criteria_header, estimate_part,
    bullet, checkbox.
  rewrite Hfalse, Hnil, map_bullet_strs. cbn [fmt].
  split; [|reflexivity]. unfold nl. rewrite !append_assoc. reflexivity.
Qed.

(** X3: a prerequisites value that is a non-empty string is iterated
    character by character: the section has one bullet per character of
    the string, not one bullet for the string. *)
Theorem string_prerequisites_render_per_character
    (d : json) (s : string) (t : task) :
  getitem d "objective" = Ok (JStr (objective t)) ->
  getitem d "prerequisites" = Ok (JStr s) ->
  s <> "" ->
  getitem d "acceptanceCriteria" = Ok (strs (acceptanceCriteria t)) ->
  getitem d "timeEstimate" = Ok (JStr (timeEstimate t)) ->
  prerequisites t = chars s ->
  create_issue_body d = Ok (issue_body t) /\
  prerequisites_section t = join (map bullet (chars s)).
Proof.
  intros Ho Hp Hs Ha Hte Hchars.
  assert (Htrue : truthy (JStr s) = true).
  { cbn. destruct (String.eqb_spec s ""); [contradiction | reflexivity]. }
  rewrite (create_issue_body_rendered d _ (JStr s) _ _ (map JStr (chars s)) _
             Ho Hp ltac:(reflexivity) Ha eq_refl Hte).
  pose proof (chars_nonempty s Hs) as Hne.
  unfold rendered, issue_body, prerequisites_section, criteria_section,
    objective_part, prerequisites_header, criteria_header, estimate_part.
  rewrite Htrue, Hchars, !map_bullet_strs. cbn [fmt].
  destruct (chars s) as [|c cs] eqn:Hc; [congruence|].
  split; [|reflexivity].
  unfold bullet, checkbox, nl. rewrite !append_assoc. reflexivity.
Qed.

(** ** One call of [create_issue] on an arbitrary value *)

Lemma create_issue_body_reads (d : json) (b : string) :
  create_issue_body d = Ok b -> has_keys d body_fields = true.
Proof.
  unfold create_issue_body, has_keys, body_fields. cbn [forallb].
  destruct (getitem d "objective") as [o|]; cbn [bind res_Monad];
    [|discriminate].
  destruct (getitem d "prerequisites") as [p|]; cbn [bind res_Monad];
    [|discriminate].
  destruct (truthy p); [destruct (iter p) as [ps|]|]; cbn [bind res_Monad ret];
    try discriminate;
    (destruct (getitem d "acceptanceCriteria") as [ac|];
       cbn [bind res_Monad ret]; [|discriminate]);
    (destruct (iter ac); cbn [bind res_Monad ret]; [|discriminate]);
    (destruct (getitem d "timeEstimate"); cbn [bind res_Monad ret];
       [reflexivity | discriminate]).
Qed.

Lemma create_issue_rejects_incomplete_task_aux (d : json) :
  has_keys d task_fields = false ->
  exists e, is_error e = true /\
    forall (E : env) (repo : json) (w : trace),
      create_issue E repo d w = (Raise e, w).
Proof.
  intros Hkeys. unfold create_issue.
  destruct (getitem d "id") as [i|e] eqn:Hi;
    [|exists e; split; [exact (getitem_errors _ _ _ Hi) | reflexivity]].
  destruct (getitem d "title") as [ti|e] eqn:Hti;
    [|exists e; split; [exact (getitem_errors _ _ _ Hti) | reflexivity]].
  destruct (create_issue_body d) as [b|e] eqn:Hb;
    [|exists e; split; [exact (create_issue_body_errors _ _ Hb) | reflexivity]].
  destruct (getitem d "labels") as [ls|e] eqn:Hls;
    [|exists e; split; [exact (getitem_errors _ _ _ Hls) | reflexivity]].
  exfalso. apply create_issue_body_reads in Hb.
  unfold has_keys, task_fields, body_fields in *. cbn [forallb] in *.
  rewrite Hi, Hti, Hls in Hkeys.
  destruct (getitem d "objective"); [|discriminate Hb].
  destruct (getitem d "prerequisites"); [|discriminate Hb].
  destruct (getitem d "acceptanceCriteria"); [|discriminate Hb].
  destruct (getitem d "timeEstimate"); [discriminate Hkeys | discriminate Hb].
Qed.

(** X4: a task that lacks one of its seven fields is rejected by
    [create_issue] before anything happens: the call raises (a [KeyError],
    or a [TypeError] met earlier), prints nothing and starts no
    subprocess, whatever the client would have answered. *)
Theorem create_issue_rejects_incomplete_task (d : json) :
  has_keys d task_fields = false ->
  exists e, is_error e = true /\
    forall (E : env) (repo : json) (w : trace),
      create_issue E repo d w = (Raise e, w).
Proof.
  intros Hkeys.
  destruct (create_issue_rejects_incomplete_task_aux d Hkeys) as (e & He & H).
  exists e. split; [exact He | exact H].
Qed.

Lemma create_issue_returns_exit_status_aux
    (E : env) (repo d : json) (w w' : trace) (ok : bool) :
  create_issue E repo d w = (Ok ok, w') ->
  exists (i : json) (announcement : string) (cmd : list json) (r : completed),
    getitem d "id" = Ok i /\
    spawn E (runs w) cmd = Exited r /\
    is_create cmd = true /\
    ok = (returncode r =? 0)%Z /\
    w' = (w ++ [EPrint announcement; ERun cmd; EPrint (outcome_line i r)])%list.
Proof.
  unfold create_issue.
  destruct (getitem d "id") as [i|e]; cbn [bind M_Monad lift]; [|discriminate].
  destruct (getitem d "title") as [ti|e]; cbn [bind M_Monad lift]; [|discriminate].
  destruct (create_issue_body d) as [b|e]; cbn [bind M_Monad lift]; [|discriminate].
  destruct (getitem d "labels") as [ls|e]; cbn [bind M_Monad lift print emit];
    [|discriminate].
  destruct (iter ls) as [items|e]; cbn [bind M_Monad lift]; [|discriminate].
  rewrite fold_left_label_args.
  unfold try_except, subprocess_run.
  cbn [bind M_Monad lift print emit ret].
  rewrite runs_app. cbn [runs filter is_run List.length]. rewrite Nat.add_0_r.
  match goal with |- context [spawn E (runs w) ?c] => set (cmd := c) end.
  destruct (spawn E (runs w) cmd) as [r| |why] eqn:Hspawn; [|discriminate..].
  unfold outcome_line.
  destruct (returncode r =? 0)%Z eqn:Hrc; cbn [andb negb]; intros [= <- <-];
    exists i, ("Creating issue: " ++ "[" ++ fmt i ++ "] " ++ fmt ti), cmd, r;
    rewrite Hrc, <- !app_assoc; repeat split; assumption.
Qed.

(** X5: the boolean [create_issue] returns is the exit status of the
    client.  Whenever a call returns, on any value, it has printed the
    announcement, started exactly one [gh issue create] subprocess and
    printed one outcome line; it returns [True] exactly when that
    subprocess exited with status 0, and the outcome line carries the
    task identifier with the stripped standard output on success and
    with the standard error on failure. *)
Theorem create_issue_returns_exit_status
    (E : env) (repo d : json) (w w' : trace) (ok : bool) :
  create_issue E repo d w = (Ok ok, w') ->
  exists (i : json) (announcement : string) (cmd : list json) (r : completed),
    getitem d "id" = Ok i /\
    spawn E (runs w) cmd = Exited r /\
    is_create cmd = true /\
    ok = (returncode r =? 0)%Z /\
    w' = (w ++ [EPrint announcement; ERun cmd; EPrint (outcome_line i r)])%list.
Proof.
  intros Hcall.
  destruct (create_issue_returns_exit_status_aux E repo d w w' ok Hcall)
    as (i & a & cmd & r & H).
  now exists i, a, cmd, r.
Qed.

(** ** The batch, task by task *)

Lemma len_iter (v : json) (items : list json) :
  iter v = Ok items -> len v = Ok (List.length items).
Proof.
  destruct v; cbn; try discriminate; intros [= <-]; now rewrite ?length_map.
Qed.

Lemma create_all_app (E : env) (repo : json) (xs ys : list json) :
  forall created failed w,
    create_all E repo (xs ++ ys) created failed w
    = match create_all E repo xs created failed w with
      | (Ok (c, f), w') => create_all E repo ys c f w'
      | (Raise e, w') => (Raise e, w')
      end.
Proof.
  induction xs as [|x xs IH]; intros created failed w; [reflexivity|].
  cbn [app create_all bind M_Monad].
  destruct (create_issue E repo x w) as [[[|]|e] w']; [apply IH..|reflexivity].
Qed.

Lemma answered_length (E : env) (repo : json) (ts : list task) :
  forall first rs, answered E repo first ts rs -> List.length rs = List.length ts.
Proof.
  induction ts as [|t ts IH]; intros first [|r rs] H; cbn in H;
    try contradiction; [reflexivity|].
  destruct H as [_ H]. cbn. now rewrite (IH _ _ H).
Qed.

Lemma create_all_transcript (E : env) (repo : json)
    (records : list json) (ts : list task) :
  Forall2 represents records ts ->
  forall (rs : list completed) (created failed : nat) (w : trace),
    answered E repo (runs w) ts rs ->
    create_all E repo records created failed w
    = (Ok ((created + created_count rs)%nat, (failed + failed_count rs)%nat),
       (w ++ batch_events repo ts rs)%list).
Proof.
  unfold created_count, failed_count, succeeded, failures.
  induction 1 as [|d t records ts R _ IH]; intros rs created failed w Hrs.
  - destruct rs; [|contradiction]. cbn. now rewrite app_nil_r, !Nat.add_0_r.
  - destruct rs as [|r rs]; [contradiction|]. destruct Hrs as [Hr Hrs].
    cbn [create_all bind M_Monad].
    rewrite (create_issue_record E repo d t w R). cbv zeta. rewrite Hr.
    cbn [map filter batch_events]. unfold issue_events, outcome_line. cbn [fmt].
    destruct (returncode r =? 0)%Z; cbn [negb List.length];
      rewrite (IH rs)
        by (rewrite !runs_app; cbn [runs filter is_run List.length];
            now rewrite !Nat.add_0_r, Nat.add_1_r);
      rewrite <- !app_assoc; cbn [app];
      do 3 f_equal; lia.
Qed.

Lemma creation_calls_batch_events (repo : json) (ts : list task) :
  forall rs, List.length rs = List.length ts ->
             creation_calls (batch_events repo ts rs) = map (issue_cmd repo) ts.
Proof.
  induction ts as [|t ts IH]; intros [|r rs] Hlen; try discriminate Hlen;
    [reflexivity|].
  cbn [batch_events]. rewrite creation_calls_app, IH by (cbn in Hlen; lia).
  reflexivity.
Qed.

(** A run whose preflight has passed, whose file has loaded and whose
    prompt was answered [y] or [Y] is the loop over the tasks followed by
    the end of [main]. *)
Lemma run_confirmed (E : env) (data repo tasks : json) (items : list json) :
  preflight_passes E = true ->
  load_result (issues_file E) = Ok (data, repo, tasks) ->
  iter tasks = Ok items ->
  answer E = "y" \/ answer E = "Y" ->
  run E = finish data repo (List.length items)
            (create_all E repo items 0 0 (prompted repo (List.length items))).
Proof.
  intros Hpre Hload Hiter Hanswer. apply lower_is_y in Hanswer.
  unfold preflight_passes in Hpre. rewrite run_stages.
  destruct (spawn E 0 gh_auth_status) as [r| |why]; try discriminate Hpre.
  now rewrite Hpre, Hload, (len_iter _ _ Hiter), Hanswer, Hiter.
Qed.

Lemma document_loads (E : env) (data : json) (repo milestone : string)
    (records : list json) :
  issues_file E = Document data ->
  document data repo milestone records ->
  load_result (issues_file E) = Ok (data, JStr repo, JArr records)
  /\ milestone_of data = Ok (JStr milestone).
Proof.
  intros Hfile (project & Hproject & Hrepo & Hmilestone & Htasks).
  unfold load_result, milestone_of.
  rewrite Hfile, Hproject. cbn [bind res_Monad].
  now rewrite Hrepo, Hmilestone, Htasks.
Qed.

(** X6: the whole output of a confirmed run over task records.  After the
    seven events up to the prompt, the run announces, attempts and
    reports each task in source order, prints the summary with the counts
    of zero and non-zero exits, and prints the follow-up guidance with the
    milestone exactly when at least one issue was created; it then
    returns normally. *)
Theorem confirmed_run_transcript
    (E : env) (data : json) (repo milestone : string)
    (records : list json) (ts : list task) (rs : list completed) :
  preflight_passes E = true ->
  issues_file E = Document data ->
  document data repo milestone records ->
  Forall2 represents records ts ->
  answered E (JStr repo) 1 ts rs ->
  answer E = "y" \/ answer E = "Y" ->
  run E
  = (Ok tt,
     (prompted (JStr repo) (List.length ts)
      ++ batch_events (JStr repo) ts rs
      ++ summary (created_count rs) (failed_count rs) (List.length ts)
      ++ (if (0 <? created_count rs)%nat
          then next_steps (JStr repo) ++ milestone_steps (JStr milestone)
          else []))%list).
Proof.
  intros Hpre Hfile Hdoc Hrecords Hrs Hanswer.
  destruct (document_loads E data repo milestone records Hfile Hdoc)
    as [Hload Hmilestone].
  rewrite (run_confirmed E data (JStr repo) (JArr records) records
             Hpre Hload eq_refl Hanswer).
  rewrite (Forall2_length Hrecords).
  rewrite (create_all_transcript E (JStr repo) records ts Hrecords rs 0 0
             (prompted (JStr repo) (List.length ts)) Hrs).
  unfold finish. fold (milestone_of data). rewrite Hmilestone. cbn [Nat.add].
  destruct (0 <? created_count rs)%nat; rewrite <- ?app_assoc;
    [reflexivity | now rewrite app_nil_r].
Qed.

(** X7: the batch stops at the first task that lacks a required field.
    With such a task after the records [ts], the issues for [ts] have
    already been attempted when the exception ends the run: nothing is
    announced for the incomplete task, no later task is attempted, no
    summary is printed, and the process exits with status 1. *)
Theorem batch_stops_at_incomplete_task
    (E : env) (data repo d : json) (before after : list json)
    (ts : list task) (rs : list completed) :
  preflight_passes E = true ->
  load_result (issues_file E) = Ok (data, repo, JArr (before ++ d :: after)) ->
  Forall2 represents before ts ->
  answered E repo 1 ts rs ->
  has_keys d task_fields = false ->
  answer E = "y" \/ answer E = "Y" ->
  exists e,
    run E
    = (Raise e,
       (prompted repo (List.length (before ++ d :: after))
        ++ batch_events repo ts rs)%list) /\
    creation_calls (snd (run E)) = map (issue_cmd repo) ts /\
    exit_code (fst (run E)) = 1%Z.
Proof.
  intros Hpre Hload Hrecords Hrs Hkeys Hanswer.
  destruct (create_issue_rejects_incomplete_task_aux d Hkeys) as (e & He & Hraise).
  exists e.
  rewrite (run_confirmed E data repo _ (before ++ d :: after)
             Hpre Hload eq_refl Hanswer).
  rewrite create_all_app.
  rewrite (create_all_transcript E repo before ts Hrecords rs 0 0
             (prompted repo (List.length (before ++ d :: after))) Hrs).
  cbn [create_all bind M_Monad]. rewrite Hraise.
  unfold finish. cbn [fst snd]. split; [reflexivity|]. split.
  - rewrite creation_calls_app.
    rewrite (creation_calls_batch_events repo ts rs (answered_length _ _ _ _ _ Hrs)).
    reflexivity.
  - now apply exit_code_error.
Qed.

(** X8: a client that disappears during the batch ends the run.  Only a
    non-zero exit is survived: when the program [gh] is no longer found
    for the task [t], the [FileNotFoundError] is not caught, the tasks
    after [t] are not attempted, no summary is printed, and the process
    exits with status 1. *)
Theorem batch_stops_when_client_disappears
    (E : env) (data repo d : json) (before after : list json)
    (ts : list task) (t : task) (rs : list completed) :
  preflight_passes E = true ->
  load_result (issues_file E) = Ok (data, repo, JArr (before ++ d :: after)) ->
  Forall2 represents before ts ->
  represents d t ->
  answered E repo 1 ts rs ->
  spawn E (S (List.length ts)) (issue_cmd repo t) = NotFound ->
  answer E = "y" \/ answer E = "Y" ->
  run E
  = (Raise FileNotFoundError,
     (prompted repo (List.length (before ++ d :: after))
      ++ batch_events repo ts rs
      ++ [EPrint ("Creating issue: " ++ issue_title t);
          ERun (issue_cmd repo t)])%list) /\
  exit_code (fst (run E)) = 1%Z.
Proof.
  intros Hpre Hload Hrecords R Hrs Hgone Hanswer.
  rewrite (run_confirmed E data repo _ (before ++ d :: after)
             Hpre Hload eq_refl Hanswer).
  rewrite create_all_app.
  rewrite (create_all_transcript E repo before ts Hrecords rs 0 0
             (prompted repo (List.length (before ++ d :: after))) Hrs).
  cbn [create_all bind M_Monad].
  rewrite (create_issue_record E repo d t _ R). cbv zeta.
  assert (Hruns : runs (prompted repo (List.length (before ++ d :: after))
                        ++ batch_events repo ts rs)%list
                  = S (List.length ts)).
  { rewrite runs_app. change (runs (prompted repo _)) with 1%nat.
    cbn [Nat.add]. f_equal.
    pose proof (answered_length _ _ _ _ _ Hrs) as Hlen. clear - Hlen.
    revert rs Hlen. induction ts as [|t' ts IH]; intros [|r rs] Hlen;
      try discriminate Hlen; [reflexivity|].
    cbn [batch_events]. rewrite runs_app.
    change (runs (issue_events repo t' r)) with 1%nat.
    cbn in Hlen |- *. f_equal. apply IH. lia. }
  rewrite Hruns, Hgone. unfold finish. cbn [fst snd].
  rewrite <- !app_assoc. split; reflexivity.
Qed.

(** X9: a missing milestone is noticed only after the batch, and only if
    an issue was created.  On a confirmed run over task records whose
    project has no readable [milestone], every issue is attempted and the
    summary is printed; then, when at least one issue was created, the
    lookup raises in the middle of the follow-up guidance and the process
    exits with status 1, and when none was created the run returns
    normally. *)
Theorem missing_milestone_found_after_batch
    (E : env) (data repo : json) (records : list json)
    (ts : list task) (rs : list completed) (e : exn) :
  preflight_passes E = true ->
  load_result (issues_file E) = Ok (data, repo, JArr records) ->
  milestone_of data = Raise e ->
  Forall2 represents records ts ->
  answered E repo 1 ts rs ->
  answer E = "y" \/ answer E = "Y" ->
  let batch := (prompted repo (List.length ts) ++ batch_events repo ts rs
                ++ summary (created_count rs) (failed_count rs)
                     (List.length ts))%list in
  run E = (if (0 <? created_count rs)%nat
           then (Raise e, (batch ++ next_steps repo)%list)
           else (Ok tt, batch)) /\
  creation_calls (snd (run E)) = map (issue_cmd repo) ts.
Proof.
  intros Hpre Hload Hmilestone Hrecords Hrs Hanswer batch.
  assert (Hrun : run E = (if (0 <? created_count rs)%nat
                          then (Raise e, (batch ++ next_steps repo)%list)
                          else (Ok tt, batch))).
  { rewrite (run_confirmed E data repo _ records Hpre Hload eq_refl Hanswer).
    rewrite (Forall2_length Hrecords).
    rewrite (create_all_transcript E repo records ts Hrecords rs 0 0
               (prompted repo (List.length ts)) Hrs).
    unfold finish. fold (milestone_of data). rewrite Hmilestone. cbn [Nat.add].
    subst batch.
    destruct (0 <? created_count rs)%nat; rewrite <- ?app_assoc; reflexivity. }
  split; [exact Hrun|]. rewrite Hrun. subst batch.
  pose proof (creation_calls_batch_events repo ts rs
                (answered_length _ _ _ _ _ Hrs)) as Hcalls.
  destruct (0 <? created_count rs)%nat; cbn [snd];
    rewrite !creation_calls_app, Hcalls; cbn; now rewrite ?app_nil_r.
Qed.

(** ** Every run, on any input *)

Lemma filter_all {A} (p : A -> bool) (l : list A) :
  forallb p l = true -> filter p l = l.
Proof.
  induction l as [|x l IH]; cbn; [reflexivity|].
  intros H. apply andb_true_iff in H as [Hx Hl]. now rewrite Hx, IH.
Qed.

Lemma create_issue_one_call (E : env) (repo d : json) (w : trace) :
  exists evs,
    snd (create_issue E repo d w) = (w ++ evs)%list /\
    creates_only evs /\
    (List.length (commands evs) <= 1)%nat /\
    (forall ok, fst (create_issue E repo d w) = Ok ok ->
                List.length (commands evs) = 1%nat).
Proof.
  destruct (create_issue_events E repo d w) as (evs & Hevs & Honly).
  exists evs. split; [exact Hevs|]. split; [exact Honly|].
  destruct (create_issue E repo d w) as [[ok|e] w'] eqn:Hcall; cbn [fst snd] in *.
  - destruct (create_issue_returns_exit_status_aux E repo d w w' ok Hcall)
      as (i & a & cmd & r & _ & _ & _ & _ & Hw').
    rewrite Hw' in Hevs. apply app_inv_head in Hevs. subst evs.
    split; [cbn; lia | intros _ _; reflexivity].
  - split; [|intros ok; discriminate].
    revert Hcall Hevs. unfold create_issue.
    destruct (getitem d "id") as [i|]; cbn [bind M_Monad lift];
      [|intros [= _ <-] H; rewrite <- (app_nil_r w) in H at 1;
        apply app_inv_head in H; subst evs; cbn; lia].
    destruct (getitem d "title") as [ti|]; cbn [bind M_Monad lift];
      [|intros [= _ <-] H; rewrite <- (app_nil_r w) in H at 1;
        apply app_inv_head in H; subst evs; cbn; lia].
    destruct (create_issue_body d) as [b|]; cbn [bind M_Monad lift];
      [|intros [= _ <-] H; rewrite <- (app_nil_r w) in H at 1;
        apply app_inv_head in H; subst evs; cbn; lia].
    destruct (getitem d "labels") as [ls|]; cbn [bind M_Monad lift print emit];
      [|intros [= _ <-] H; rewrite <- (app_nil_r w) in H at 1;
        apply app_inv_head in H; subst evs; cbn; lia].
    destruct (iter ls) as [items|]; cbn [bind M_Monad lift];
      [|intros [= _ <-] H; apply app_inv_head in H; subst evs; cbn; lia].
    unfold try_except, subprocess_run. cbn [bind M_Monad lift print emit ret].
    destruct (spawn E _ _) as [r| |why];
      [destruct (returncode r =? 0)%Z; cbn [andb negb]; discriminate| |];
      intros [= _ <-] H; rewrite <- app_assoc in H;
      apply app_inv_head in H; subst evs; cbn; lia.
Qed.

Lemma create_all_counts (E : env) (repo : json) (items : list json) :
  forall created failed w,
  exists evs,
    snd (create_all E repo items created failed w) = (w ++ evs)%list /\
    creates_only evs /\
    (List.length (commands evs) <= List.length items)%nat /\
    (forall c f, fst (create_all E repo items created failed w) = Ok (c, f) ->
       (c + f = created + failed + List.length items)%nat /\
       List.length (commands evs) = List.length items).
Proof.
  induction items as [|d items IH]; intros created failed w.
  - exists []. cbn. rewrite app_nil_r.
    split; [reflexivity|]. split; [split; reflexivity|]. split; [lia|].
    intros c f [= <- <-]. split; lia.
  - cbn [create_all bind M_Monad].
    destruct (create_issue_one_call E repo d w) as (evs & Hevs & Honly & Hle & Hone).
    destruct (create_issue E repo d w) as [[ok|e] w']; cbn [fst snd] in *; subst w'.
    + specialize (Hone ok eq_refl).
      destruct ok;
        [destruct (IH (created + 1)%nat failed (w ++ evs)%list)
           as (evs' & H & Honly' & Hle' & Hok)
        |destruct (IH created (failed + 1)%nat (w ++ evs)%list)
           as (evs' & H & Honly' & Hle' & Hok)];
        exists (evs ++ evs')%list; rewrite H, <- app_assoc;
        (split; [reflexivity|]);
        (split; [now apply creates_only_app|]);
        rewrite commands_app, length_app; cbn [List.length];
        (split; [lia|]); intros c f Hcf; destruct (Hok c f Hcf); lia.
    + exists evs. split; [reflexivity|]. split; [assumption|].
      cbn [List.length]. split; [lia | intros c f; discriminate].
Qed.

Lemma finish_tail (data repo : json) (total : nat)
    (looped : res (nat * nat) * trace) :
  exists tail,
    snd (finish data repo total looped) = (snd looped ++ tail)%list /\
    commands tail = [] /\
    (fst (finish data repo total looped) = Ok tt ->
     exists c f guidance,
       fst looped = Ok (c, f) /\
       tail = (summary c f total ++ guidance)%list).
Proof.
  unfold finish.
  destruct looped as [[[created failed]|e] w]; cbn [fst snd].
  - destruct (0 <? created)%nat.
    + destruct (project <- getitem data "project" ;; getitem project "milestone")
        as [m|e]; cbn [fst snd]; rewrite <- app_assoc.
      * eexists. split; [reflexivity|]. split; [reflexivity|].
        intros _. now exists created, failed, (next_steps repo ++ milestone_steps m)%list.
      * eexists. split; [reflexivity|]. split; [reflexivity | discriminate].
    + eexists. split; [reflexivity|]. split; [reflexivity|].
      intros _. exists created, failed, []. now rewrite app_nil_r.
  - exists []. rewrite app_nil_r. repeat split. discriminate.
Qed.

(** The shape of every run that goes past the prompt with [y]. *)
Lemma run_loop_shape (E : env) (data repo : json) (n : nat) (items : list json) :
  exists evs tail,
    snd (finish data repo n (create_all E repo items 0 0 (prompted repo n)))
    = (prompted repo n ++ evs ++ tail)%list /\
    creates_only evs /\ commands tail = [] /\
    (List.length (commands evs) <= List.length items)%nat /\
    (fst (finish data repo n (create_all E repo items 0 0 (prompted repo n)))
     = Ok tt ->
     exists c f guidance,
       tail = (summary c f n ++ guidance)%list /\
       (c + f = List.length items)%nat /\
       List.length (commands evs) = List.length items).
Proof.
  destruct (create_all_counts E repo items 0 0 (prompted repo n))
    as (evs & Hevs & Honly & Hle & Hok).
  destruct (finish_tail data repo n
              (create_all E repo items 0 0 (prompted repo n)))
    as (tail & Htail & Hcmds & Hfin).
  exists evs, tail. rewrite Htail, Hevs, <- app_assoc.
  split; [reflexivity|]. split; [assumption|]. split; [assumption|].
  split; [assumption|].
  intros Hdone. destruct (Hfin Hdone) as (c & f & guidance & Hloop & ->).
  exists c, f, guidance. destruct (Hok c f Hloop). repeat split; lia.
Qed.

Lemma commands_only_creates (evs : trace) :
  creates_only evs -> creation_calls evs = commands evs.
Proof. intros [_ H]. now apply filter_all. Qed.

(** X10: the script runs no other program.  In every run, whatever the
    input and the environment, the first subprocess is [gh auth status],
    it is started once, and every other subprocess is a [gh issue create]
    call. *)
Theorem only_the_probe_and_creation_calls (E : env) :
  commands (snd (run E)) = gh_auth_status :: creation_calls (snd (run E)).
Proof.
  rewrite run_stages.
  destruct (spawn E 0 gh_auth_status) as [r| |why];
    [destruct (returncode r =? 0)%Z| |]; try reflexivity.
  destruct (load_result (issues_file E)) as [[[data repo] tasks]|e];
    [|reflexivity].
  destruct (len tasks) as [n|e]; [|reflexivity].
  destruct (String.eqb (lower (answer E)) "y"); [|reflexivity].
  destruct (iter tasks) as [items|e]; [|reflexivity].
  destruct (run_loop_shape E data repo n items)
    as (evs & tail & -> & Honly & Htail & _).
  unfold creation_calls at 1.
  rewrite !commands_app, Htail, app_nil_r, filter_app.
  fold (creation_calls evs). rewrite (commands_only_creates evs Honly).
  reflexivity.
Qed.

(** X11: no task is attempted twice.  Once the task file has loaded, the
    number of [gh issue create] calls of a run never exceeds the number of
    tasks, [len(tasks)], whatever the tasks hold and however the calls
    end: there is no retry. *)
Theorem at_most_one_creation_call_per_task
    (E : env) (data repo tasks : json) (n : nat) :
  load_result (issues_file E) = Ok (data, repo, tasks) ->
  len tasks = Ok n ->
  (List.length (creation_calls (snd (run E))) <= n)%nat.
Proof.
  intros Hload Hlen. rewrite run_stages, Hload, Hlen.
  destruct (spawn E 0 gh_auth_status) as [r| |why];
    [destruct (returncode r =? 0)%Z| |]; try (cbn; lia).
  destruct (String.eqb (lower (answer E)) "y"); [|cbn; lia].
  destruct (iter tasks) as [items|e] eqn:Hiter; [|cbn; lia].
  pose proof (len_iter _ _ Hiter) as Hlen'. rewrite Hlen in Hlen'.
  injection Hlen' as ->.
  destruct (run_loop_shape E data repo (List.length items) items)
    as (evs & tail & -> & Honly & Htail & Hle & _).
  rewrite !creation_calls_app, (commands_only_creates evs Honly).
  unfold creation_calls at 2. rewrite Htail.
  change (creation_calls (prompted repo (List.length items)))
    with (@nil (list json)).
  cbn [filter app]. now rewrite app_nil_r.
Qed.

(** X12: the summary always adds up.  Every confirmed run that returns
    normally, on any document, has attempted exactly [len(tasks)]
    creation calls and has printed a summary whose created and failed
    counts sum to the total it prints. *)
Theorem summary_adds_up (E : env) :
  answer E = "y" \/ answer E = "Y" ->
  fst (run E) = Ok tt ->
  exists (data repo tasks : json) (total created failed : nat)
         (attempts guidance : trace),
    load_result (issues_file E) = Ok (data, repo, tasks) /\
    len tasks = Ok total /\
    snd (run E) = (prompted repo total ++ attempts
                   ++ summary created failed total ++ guidance)%list /\
    (created + failed = total)%nat /\
    List.length (creation_calls (snd (run E))) = total.
Proof.
  intros Hanswer. apply lower_is_y in Hanswer.
  rewrite run_stages, Hanswer.
  destruct (spawn E 0 gh_auth_status) as [r| |why];
    [destruct (returncode r =? 0)%Z| |]; try discriminate.
  destruct (load_result (issues_file E)) as [[[data repo] tasks]|e];
    [|discriminate].
  destruct (len tasks) as [n|e] eqn:Hlen; [|discriminate].
  destruct (iter tasks) as [items|e] eqn:Hiter; [|discriminate].
  pose proof (len_iter _ _ Hiter) as Hlen'. rewrite Hlen in Hlen'.
  injection Hlen' as ->.
  destruct (run_loop_shape E data repo (List.length items) items)
    as (evs & tail & Hshape & Honly & Htail & _ & Hdone).
  intros Hok. destruct (Hdone Hok) as (c & f & guidance & -> & Hsum & Hcalls).
  exists data, repo, tasks, (List.length items), c, f, evs, guidance.
  rewrite Hshape. repeat split; try assumption.
  rewrite !creation_calls_app, (commands_only_creates evs Honly).
  rewrite commands_app in Htail. apply app_eq_nil in Htail as [_ Hg].
  unfold creation_calls at 3. rewrite Hg.
  change (creation_calls (prompted repo (List.length items)))
    with (@nil (list json)).
  change (creation_calls (summary c f (List.length items)))
    with (@nil (list json)).
  cbn [filter app]. now rewrite app_nil_r.
Qed.

(** X14: no issue is created behind the user's back.  If a run makes any
    creation call, then the preflight check had passed, the task file had
    loaded, the answer at the prompt was [y] or [Y], and every creation
    call comes after the prompt. *)
Theorem creation_only_after_confirmation (E : env) :
  creation_calls (snd (run E)) <> [] ->
  preflight_passes E = true /\
  (answer E = "y" \/ answer E = "Y") /\
  exists (data repo tasks : json) (n : nat) (rest : trace),
    load_result (issues_file E) = Ok (data, repo, tasks) /\
    len tasks = Ok n /\
    snd (run E) = (prompted repo n ++ rest)%list /\
    creation_calls (prompted repo n) = [].
Proof.
  unfold preflight_passes. rewrite run_stages.
  destruct (spawn E 0 gh_auth_status) as [r| |why];
    [destruct (returncode r =? 0)%Z| |]; try (intros H; now destruct H).
  destruct (load_result (issues_file E)) as [[[data repo] tasks]|e];
    [|intros H; now destruct H].
  destruct (len tasks) as [n|e] eqn:Hlen; [|intros H; now destruct H].
  destruct (String.eqb (lower (answer E)) "y") eqn:Hanswer;
    [|intros H; now destruct H].
  apply lower_is_y in Hanswer.
  destruct (iter tasks) as [items|e]; [|intros H; now destruct H].
  destruct (run_loop_shape E data repo n items)
    as (evs & tail & -> & _).
  intros _. split; [reflexivity|]. split; [assumption|].
  exists data, repo, tasks, n, (evs ++ tail)%list.
  repeat split. exact Hlen.
Qed.

Lemma create_all_strings (E : env) (repo : json) (l : list string) :
  forall created failed w,
    create_all E repo (map JStr l) created failed w
    = match l with
      | [] => (Ok (created, failed), w)
      | _ :: _ => (Raise TypeError, w)
      end.
Proof.
  destruct l as [|s l]; reflexivity.
Qed.

(** X15: tasks that are not a list create nothing.  When the [tasks]
    entry of the document is not a JSON array, no creation call is ever
    made; and unless it is the empty string or the empty object, a
    confirmed run whose preflight passed ends with [TypeError]: at
    [len(tasks)] for [null], a boolean or a number, and at the first
    character or key for a string or an object. *)
Theorem tasks_not_a_list_create_nothing
    (E : env) (data repo tasks : json) :
  load_result (issues_file E) = Ok (data, repo, tasks) ->
  (forall records, tasks <> JArr records) ->
  creation_calls (snd (run E)) = [] /\
  (preflight_passes E = true ->
   answer E = "y" \/ answer E = "Y" ->
   tasks <> JStr "" -> tasks <> JObj [] ->
   fst (run E) = Raise TypeError).
Proof.
  intros Hload Hnot. unfold preflight_passes. rewrite run_stages, Hload.
  destruct (spawn E 0 gh_auth_status) as [r| |why];
    [destruct (returncode r =? 0)%Z| |];
    try (split; [reflexivity | discriminate]).
  destruct tasks as [ |b|z|f|s|records|kvs];
    try (split; [reflexivity | intros _ _ _ _; reflexivity]).
  - cbn [len iter].
    destruct (String.eqb (lower (answer E)) "y") eqn:Hanswer.
    + rewrite create_all_strings.
      destruct (chars s) as [|c cs] eqn:Hchars.
      * split; [reflexivity|]. intros _ _ Hs _. destruct s; [congruence|].
        now destruct (chars_nonempty (String a s) ltac:(discriminate)).
      * split; reflexivity.
    + split; [reflexivity|]. intros _ Hy. apply lower_is_y in Hy. congruence.
  - now destruct (Hnot records).
  - cbn [len iter].
    destruct (String.eqb (lower (answer E)) "y") eqn:Hanswer.
    + rewrite <- (map_map fst JStr), create_all_strings.
      destruct kvs as [|kv kvs].
      * split; [reflexivity|]. intros _ _ _ Hk. congruence.
      * split; reflexivity.
    + split; [reflexivity|]. intros _ Hy. apply lower_is_y in Hy. congruence.
Qed.

(** ** The layout of the body *)

Lemma join_app (u v : list string) : join (u ++ v) = join u ++ join v.
Proof.
  induction u as [|x u IH]; cbn; [reflexivity|].
  fold (join (u ++ v)) (join u). now rewrite IH, append_assoc.
Qed.

Lemma has_newline_app (a b : string) :
  has_newline (a ++ b) = has_newline a || has_newline b.
Proof.
  induction a as [|c a IH]; cbn; [reflexivity|]. now rewrite IH, orb_assoc.
Qed.

Lemma lines_of_lines (ls : list string) :
  forallb (fun l => negb (has_newline l)) ls = true ->
  lines (join (map (fun l => l ++ nl) ls)) = ls.
Proof.
  intros H. pose proof (lines_join "" ls H) as Hjoin.
  cbn [append] in Hjoin. now rewrite map_id in Hjoin.
Qed.

Lemma issue_body_lines (t : task) :
  issue_body t = join (map (fun l => l ++ nl) (body_lines t)).
Proof.
  unfold issue_body, body_lines, objective_part, prerequisites_header,
    prerequisites_section, criteria_header, criteria_section, estimate_part.
  rewrite !map_app, !join_app, !map_map.
  assert (Hitems : forall prefix items,
            join (map (fun x => (prefix ++ x) ++ nl) items)
            = join (map (fun x => prefix ++ x ++ nl) items)).
  { intros prefix items. f_equal. apply map_ext. intros x. apply append_assoc. }
  rewrite Hitems.
  destruct (prerequisites t) as [|p ps].
  - unfold bullet, checkbox, nl. cbn [map join fold_right].
    rewrite !append_assoc. reflexivity.
  - rewrite map_map, Hitems.
    change (join (map (fun x => "- " ++ x ++ nl) (p :: ps)))
      with (join (map bullet (p :: ps))).
    unfold checkbox, nl. cbn [map join fold_right].
    rewrite !append_assoc. reflexivity.
Qed.

(** X16: the layout of the rendered body.  For a task record whose
    objective, prerequisites, acceptance criteria and time estimate hold
    no line feed, the lines of the body are, in this order: the Objective
    header and the objective, a blank line, the Prerequisites header and
    its bullets, a blank line, the Acceptance Criteria header and its
    checklist, a blank line, the Time Estimate header and the estimate, a
    blank line, the two Resources lines under their header, a blank line,
    and the four Definition of Done items under their header. *)
Theorem body_layout (d : json) (t : task) :
  represents d t ->
  single_line_fields t = true ->
  exists body,
    create_issue_body d = Ok body /\
    lines body = body_lines t.
Proof.
  intros R Hsingle. exists (issue_body t).
  split; [exact (create_issue_body_renders d t R)|].
  unfold single_line_fields in Hsingle.
  apply andb_true_iff in Hsingle as [Hsingle Hte].
  apply andb_true_iff in Hsingle as [Hsingle Hcs].
  apply andb_true_iff in Hsingle as [Ho Hps].
  rewrite issue_body_lines. apply lines_of_lines.
  unfold body_lines. rewrite !forallb_app. cbn [forallb].
  rewrite Ho, Hte. cbn [negb has_newline andb].
  assert (Hmap : forall prefix items,
            has_newline prefix = false ->
            forallb (fun p => negb (has_newline p)) items = true ->
            forallb (fun l => negb (has_newline l)) (map (append prefix) items)
            = true).
  { intros prefix items Hprefix.
    induction items as [|x items IH]; [reflexivity|].
    cbn [forallb map]. intros Hitems.
    apply andb_true_iff in Hitems as [Hx Hitems].
    apply negb_true_iff in Hx.
    now rewrite has_newline_app, Hprefix, Hx, (IH Hitems). }
  rewrite (Hmap "- [ ] " _ eq_refl Hcs).
  destruct (prerequisites t) as [|p ps]; [reflexivity|].
  now rewrite (Hmap "- " _ eq_refl Hps).
Qed.

(** ** The preflight check on another failure *)

(** X17: the preflight check catches only [FileNotFoundError].  When the
    client cannot be started for another reason (it is installed but not
    executable, say), [check_gh_cli] raises that exception instead of
    returning; the run then ends with it right after the probe, without a
    diagnostic, without opening the task file, and the process exits with
    status 1. *)
Theorem preflight_other_failure_propagates (E : env) (why : string) :
  spawn E 0 gh_auth_status = CannotStart why ->
  check_gh_cli E [EPrint banner]
  = (Raise (OtherError why), [EPrint banner; ERun gh_auth_status]) /\
  run E = (Raise (OtherError why), [EPrint banner; ERun gh_auth_status]) /\
  exit_code (fst (run E)) = 1%Z.
Proof.
  intros Hspawn. split; [|split].
  - unfold check_gh_cli, try_except, subprocess_run.
    cbn [bind M_Monad runs filter is_run List.length]. now rewrite Hspawn.
  - now rewrite run_stages, Hspawn.
  - now rewrite run_stages, Hspawn.
Qed.

End Script.

(** ** The properties on the sample inputs *)

Lemma represents_task_json (t : task) : represents (task_json t) t.
Proof. repeat split. Qed.

(** The formatter on the task T1 of the end-to-end example, under two
    different clients, repositories and histories. *)
Lemma formatter_deterministic_T1 :
  create_issue_body str_atoms (task_json task_T1) = Ok (issue_body task_T1) /\
  forall (E1 E2 : env) (repo1 repo2 : json) (w1 w2 : trace),
    formatted (emitted w1 (create_issue str_atoms E1 repo1 (task_json task_T1) w1))
    = [(JStr "[T1] Add X", JStr (issue_body task_T1))] /\
    formatted (emitted w1 (create_issue str_atoms E1 repo1 (task_json task_T1) w1))
    = formatted (emitted w2 (create_issue str_atoms E2 repo2 (task_json task_T1) w2)).
Proof.
  apply (formatter_deterministic str_atoms (task_json task_T1) task_T1).
  repeat split.
Defined.

(** The Prerequisites section of T2, which has two prerequisites. *)
Lemma prerequisites_section_bullets_T2 :
  exists section : string,
    create_issue_body str_atoms (task_json task_T2)
    = Ok (objective_part task_T2 ++ prerequisites_header ++ section
          ++ nl ++ criteria_header ++ criteria_section task_T2
          ++ estimate_part task_T2 ++ body_footer) /\
    lines section = ["- T1"; "- Design review"] /\
    List.length (lines section) = 2%nat.
Proof.
  destruct (prerequisites_section_bullets str_atoms (task_json task_T2) task_T2)
    as (section & Hbody & _ & Hk).
  - repeat split.
  - reflexivity.
  - exists section. split; [exact Hbody|].
    apply (Hk 2%nat); [reflexivity | lia].
Defined.

(** The Acceptance Criteria section of T2, whose criteria are A and B. *)
Lemma acceptance_criteria_checklist_T2 :
  exists checklist : string,
    create_issue_body str_atoms (task_json task_T2)
    = Ok (objective_part task_T2 ++ prerequisites_header
          ++ prerequisites_section task_T2
          ++ nl ++ ("## Acceptance Criteria" ++ nl) ++ checklist
          ++ (nl ++ "## Time Estimate" ++ nl ++ timeEstimate task_T2 ++ nl)
          ++ body_footer) /\
    lines (("## Acceptance Criteria" ++ nl) ++ checklist)
    = ["## Acceptance Criteria"; "- [ ] A"; "- [ ] B"].
Proof.
  destruct (acceptance_criteria_checklist str_atoms (task_json task_T2) task_T2)
    as (checklist & Hbody & _ & _ & Hab).
  - repeat split.
  - reflexivity.
  - exists checklist. split; [exact Hbody | now apply Hab].
Defined.

(** T1 and its renamed copy have the same body. *)
Lemma body_independent_of_id_title_labels_T1 :
  create_issue_body str_atoms (task_json task_T1)
  = create_issue_body str_atoms (task_json task_T1_renamed).
Proof.
  apply (body_independent_of_id_title_labels str_atoms
           (task_json task_T1) (task_json task_T1_renamed));
    reflexivity.
Defined.

(** The answer [yes] is not an affirmative answer: the run on the valid
    one-task file is cancelled. *)
Lemma declined_confirmation_cancels_yes :
  run str_atoms env_declined
  = (Ok tt,
     [EPrint banner; ERun gh_auth_status; EPrint "📄 Loading issue data...";
      EOpen json_path; EPrint "📦 Repository: org/repo";
      EPrint ("📋 Total tasks: 1" ++ nl); EInput prompt;
      EPrint "Cancelled."]) /\
  creation_calls (snd (run str_atoms env_declined)) = [] /\
  exit_code (fst (run str_atoms env_declined)) = 0%Z /\
  (forall E' : env,
     answer E' = "yes" -> creation_calls (snd (run str_atoms E')) = []).
Proof.
  apply (declined_confirmation_cancels str_atoms env_declined doc_one
           (JStr "org/repo") (JArr [task_json task_T1]) 1).
  - reflexivity.
  - reflexivity.
  - reflexivity.
  - apply String.eqb_neq; reflexivity.
  - apply String.eqb_neq; reflexivity.
Defined.

(** Task 2 of 3 fails: created=2, failed=1, total=3, exit status 0. *)
Lemma batch_continues_after_failures_2_of_3 :
  creation_calls (snd (run str_atoms env_second_fails))
  = [issue_cmd (JStr "org/repo") task_T1; issue_cmd (JStr "org/repo") task_T2;
     issue_cmd (JStr "org/repo") task_T3] /\
  (exists evs guidance,
     snd (run str_atoms env_second_fails)
     = (prompted str_atoms (JStr "org/repo") 3 ++ evs
        ++ summary 2 1 3 ++ guidance)%list /\
     creation_calls guidance = []) /\
  (2 + 1)%nat = 3%nat /\
  fst (run str_atoms env_second_fails) = Ok tt /\
  exit_code (fst (run str_atoms env_second_fails)) = 0%Z.
Proof.
  apply (batch_continues_after_failures str_atoms env_second_fails doc_three
           "org/repo" "M1"
           [task_json task_T1; task_json task_T2; task_json task_T3]
           [task_T1; task_T2; task_T3] [0; 1; 0]%Z).
  - reflexivity.
  - reflexivity.
  - exists project_M1. repeat split.
  - repeat constructor.
  - right. reflexivity.
  - reflexivity.
  - intros i Hi cmd. destruct i as [|[|[|i]]].
    + eexists. split; reflexivity.
    + eexists. split; reflexivity.
    + eexists. split; reflexivity.
    + cbn in Hi. lia.
Defined.

(** A missing task file, after a preflight that passed. *)
Lemma load_failure_aborts_before_creation_no_file :
  creation_calls (snd (run str_atoms env_no_file)) = [] /\
  exit_code (fst (run str_atoms env_no_file)) = 1%Z /\
  (preflight_passes env_no_file = true ->
   run str_atoms env_no_file = (Raise FileNotFoundError, opened)).
Proof.
  apply (load_failure_aborts_before_creation str_atoms env_no_file
           FileNotFoundError).
  reflexivity.
Defined.

(** C1 fails as stated: the document [doc_invalid] lacks a required field
    in its second task record, and the run still makes a creation call,
    for the first task, before it stops with [KeyError]. *)
Lemma invalid_task_record_after_creation :
  structurally_valid doc_invalid = false /\
  issues_file env_invalid = Document doc_invalid /\
  creation_calls (snd (run str_atoms env_invalid))
  = [issue_cmd (JStr "org/repo") task_T1] /\
  fst (run str_atoms env_invalid) = Raise (KeyError "objective").
Proof. repeat split. Qed.

(** C2 fails as stated: in the confirmed run on a valid file the client is
    probed at position 1 of the trace and the task file is opened at
    position 3. *)
Lemma loader_runs_after_preflight :
  first_index is_preflight (snd (run str_atoms env_confirmed)) = Some 1%nat /\
  first_index is_open (snd (run str_atoms env_confirmed)) = Some 3%nat /\
  loader_first (snd (run str_atoms env_confirmed)) = false.
Proof. repeat split. Qed.

(** C5 fails as stated: with a passing preflight and a missing task file
    the process exits with status 1. *)
Lemma exit_1_without_preflight_failure :
  preflight_fails env_no_file = false /\
  fst (run str_atoms env_no_file) = Raise FileNotFoundError /\
  exit_code (fst (run str_atoms env_no_file)) = 1%Z.
Proof. repeat split. Qed.

(** ** The further properties on sample inputs *)

(** [prerequisites: null] renders as [- None]. *)
Lemma falsy_prerequisites_render_none_null :
  create_issue_body str_atoms task_null_prerequisites = Ok (issue_body task_T1).
Proof.
  apply (falsy_prerequisites_render_none str_atoms task_null_prerequisites
           JNull task_T1); reflexivity.
Defined.

(** [prerequisites: "T1"] renders as the bullets [- T] and [- 1]. *)
Lemma string_prerequisites_render_per_character_T1 :
  prerequisites_section (Task "T4" "Add W" "Do W" ["T"; "1"] ["W works"] "1h" [])
  = "- T" ++ nl ++ "- 1" ++ nl.
Proof.
  apply (string_prerequisites_render_per_character str_atoms
           task_string_prerequisites "T1"
           (Task "T4" "Add W" "Do W" ["T"; "1"] ["W works"] "1h" []));
    first [reflexivity | discriminate].
Defined.

(** A task without [objective] is rejected without any effect. *)
Lemma create_issue_rejects_incomplete_task_no_objective :
  exists e, is_error e = true /\
    forall (E : env) (repo : json) (w : trace),
      create_issue str_atoms E repo task_without_objective w = (Raise e, w).
Proof.
  apply (create_issue_rejects_incomplete_task str_atoms task_without_objective).
  reflexivity.
Defined.

(** The second creation call of [env_second_fails] exits with status 1:
    [create_issue] returns [False]. *)
Lemma create_issue_returns_exit_status_T2 :
  exists (i : json) (announcement : string) (cmd : list json) (r : completed),
    getitem (task_json task_T2) "id" = Ok i /\
    spawn env_second_fails 2 cmd = Exited r /\
    is_create cmd = true /\
    false = (returncode r =? 0)%Z /\
    snd (create_issue str_atoms env_second_fails (JStr "org/repo")
           (task_json task_T2) [ERun gh_auth_status; ERun []])
    = ([ERun gh_auth_status; ERun []]
       ++ [EPrint announcement; ERun cmd; EPrint (outcome_line str_atoms i r)])%list.
Proof.
  apply (create_issue_returns_exit_status str_atoms env_second_fails
           (JStr "org/repo") (task_json task_T2)
           [ERun gh_auth_status; ERun []]).
  reflexivity.
Defined.

(** The whole output of the run in which task 2 of 3 fails. *)
Lemma confirmed_run_transcript_2_of_3 :
  run str_atoms env_second_fails
  = (Ok tt,
     (prompted str_atoms (JStr "org/repo") 3
      ++ batch_events str_atoms (JStr "org/repo")
           [task_T1; task_T2; task_T3] [created_ok; rejected_422; created_ok]
      ++ summary 2 1 3
      ++ next_steps str_atoms (JStr "org/repo")
      ++ milestone_steps str_atoms (JStr "M1"))%list).
Proof.
  apply (confirmed_run_transcript str_atoms env_second_fails doc_three
           "org/repo" "M1"
           [task_json task_T1; task_json task_T2; task_json task_T3]
           [task_T1; task_T2; task_T3] [created_ok; rejected_422; created_ok]).
  - reflexivity.
  - reflexivity.
  - exists project_M1. repeat split.
  - repeat constructor.
  - repeat split.
  - right. reflexivity.
Defined.

(** The run on [doc_invalid] stops at its second task. *)
Lemma batch_stops_at_incomplete_task_second :
  exists e,
    run str_atoms env_invalid
    = (Raise e,
       (prompted str_atoms (JStr "org/repo") 2
        ++ batch_events str_atoms (JStr "org/repo") [task_T1] [created_ok])%list) /\
    creation_calls (snd (run str_atoms env_invalid))
    = [issue_cmd (JStr "org/repo") task_T1] /\
    exit_code (fst (run str_atoms env_invalid)) = 1%Z.
Proof.
  apply (batch_stops_at_incomplete_task str_atoms env_invalid doc_invalid
           (JStr "org/repo") task_without_objective [task_json task_T1] []
           [task_T1] [created_ok]).
  - reflexivity.
  - reflexivity.
  - repeat constructor.
  - repeat split.
  - reflexivity.
  - left. reflexivity.
Defined.

(** The client is removed after the first of three creation calls. *)
Lemma batch_stops_when_client_disappears_second :
  run str_atoms env_client_removed
  = (Raise FileNotFoundError,
     (prompted str_atoms (JStr "org/repo") 3
      ++ batch_events str_atoms (JStr "org/repo") [task_T1] [created_ok]
      ++ [EPrint "Creating issue: [T2] Add Y";
          ERun (issue_cmd (JStr "org/repo") task_T2)])%list) /\
  exit_code (fst (run str_atoms env_client_removed)) = 1%Z.
Proof.
  apply (batch_stops_when_client_disappears str_atoms env_client_removed
           doc_three (JStr "org/repo") (task_json task_T2)
           [task_json task_T1] [task_json task_T3] [task_T1] task_T2
           [created_ok]).
  - reflexivity.
  - reflexivity.
  - repeat constructor.
  - repeat split.
  - repeat split.
  - reflexivity.
  - left. reflexivity.
Defined.

(** Without a milestone the one issue is created and the summary printed
    before [KeyError('milestone')] ends the run. *)
Lemma missing_milestone_found_after_batch_T1 :
  run str_atoms env_no_milestone
  = (Raise (KeyError "milestone"),
     ((prompted str_atoms (JStr "org/repo") 1
       ++ batch_events str_atoms (JStr "org/repo") [task_T1] [created_ok]
       ++ summary 1 0 1)
      ++ next_steps str_atoms (JStr "org/repo"))%list) /\
  creation_calls (snd (run str_atoms env_no_milestone))
  = [issue_cmd (JStr "org/repo") task_T1].
Proof.
  apply (missing_milestone_found_after_batch str_atoms env_no_milestone
           doc_no_milestone (JStr "org/repo") [task_json task_T1]
           [task_T1] [created_ok] (KeyError "milestone")).
  - reflexivity.
  - reflexivity.
  - reflexivity.
  - repeat constructor.
  - repeat split.
  - left. reflexivity.
Defined.

(** Three tasks, at most three creation calls. *)
Lemma at_most_one_creation_call_per_task_three :
  (List.length (creation_calls (snd (run str_atoms env_second_fails))) <= 3)%nat.
Proof.
  apply (at_most_one_creation_call_per_task str_atoms env_second_fails
           doc_three (JStr "org/repo")
           (JArr [task_json task_T1; task_json task_T2; task_json task_T3]) 3);
    reflexivity.
Defined.

(** The summary of the run in which task 2 of 3 fails adds up. *)
Lemma summary_adds_up_2_of_3 :
  exists (data repo tasks : json) (total created failed : nat)
         (attempts guidance : trace),
    load_result (issues_file env_second_fails) = Ok (data, repo, tasks) /\
    len tasks = Ok total /\
    snd (run str_atoms env_second_fails)
    = (prompted str_atoms repo total ++ attempts
       ++ summary created failed total ++ guidance)%list /\
    (created + failed = total)%nat /\
    List.length (creation_calls (snd (run str_atoms env_second_fails))) = total.
Proof.
  apply (summary_adds_up str_atoms env_second_fails).
  - right. reflexivity.
  - reflexivity.
Defined.

(** The confirmed run creates an issue: its preflight passed, its file
    loaded and its answer was [y]. *)
Lemma creation_only_after_confirmation_confirmed :
  preflight_passes env_confirmed = true /\
  (answer env_confirmed = "y" \/ answer env_confirmed = "Y") /\
  exists (data repo tasks : json) (n : nat) (rest : trace),
    load_result (issues_file env_confirmed) = Ok (data, repo, tasks) /\
    len tasks = Ok n /\
    snd (run str_atoms env_confirmed) = (prompted str_atoms repo n ++ rest)%list /\
    creation_calls (prompted str_atoms repo n) = [].
Proof.
  apply (creation_only_after_confirmation str_atoms env_confirmed).
  discriminate.
Defined.

(** Tasks given as an object: no creation call, [TypeError] at the first
    key. *)
Lemma tasks_not_a_list_create_nothing_object :
  creation_calls (snd (run str_atoms env_tasks_object)) = [] /\
  fst (run str_atoms env_tasks_object) = Raise TypeError.
Proof.
  destruct (tasks_not_a_list_create_nothing str_atoms env_tasks_object
              doc_tasks_object (JStr "org/repo")
              (JObj [("T1", task_json task_T1)]))
    as [Hnone Herror].
  - reflexivity.
  - discriminate.
  - split; [exact Hnone|].
    apply Herror; [reflexivity | left; reflexivity | discriminate..].
Defined.

(** The layout of the body of T2. *)
Lemma body_layout_T2 :
  exists body,
    create_issue_body str_atoms (task_json task_T2) = Ok body /\
    lines body
    = ["## Objective"; "Do Y"; ""; "## Prerequisites"; "- T1";
       "- Design review"; ""; "## Acceptance Criteria"; "- [ ] A"; "- [ ] B";
       ""; "## Time Estimate"; "2h"; "";
       "## Resources";
       "- Implementation Plan: `docs/SNES9XWASM_IMPLEMENTATION_PLAN.md`";
       "- Task Breakdown: `docs/TASK_BREAKDOWN.md`";
       "";
       "## Definition of Done";
       "- [ ] Code changes committed and reviewed";
       "- [ ] All acceptance criteria met";
       "- [ ] Tests written and passing";
       "- [ ] Documentation updated"].
Proof.
  apply (body_layout str_atoms (task_json task_T2) task_T2).
  - repeat split.
  - reflexivity.
Defined.

(** A client that is installed but not executable. *)
Lemma preflight_other_failure_propagates_not_executable :
  check_gh_cli env_not_executable [EPrint banner]
  = (Raise (OtherError "PermissionError"),
     [EPrint banner; ERun gh_auth_status]) /\
  run str_atoms env_not_executable
  = (Raise (OtherError "PermissionError"),
     [EPrint banner; ERun gh_auth_status]) /\
  exit_code (fst (run str_atoms env_not_executable)) = 1%Z.
Proof.
  apply (preflight_other_failure_propagates str_atoms env_not_executable
           "PermissionError").
  reflexivity.
Defined.

(** C7 fails as stated: the task [task_multiline_prerequisite] has one
    prerequisite, and the Prerequisites section of its body has the two
    bullet lines [- a] and [- b]. *)
Lemma multiline_prerequisite_renders_two_bullets :
  List.length (prerequisites task_multiline_prerequisite) = 1%nat /\
  create_issue_body str_atoms (task_json task_multiline_prerequisite)
  = Ok (objective_part task_multiline_prerequisite ++ prerequisites_header
        ++ ("- a" ++ nl ++ "- b" ++ nl)
        ++ nl ++ criteria_header ++ criteria_section task_multiline_prerequisite
        ++ estimate_part task_multiline_prerequisite ++ body_footer) /\
  lines ("- a" ++ nl ++ "- b" ++ nl) = ["- a"; "- b"] /\
  firstn 8 (lines (issue_body task_multiline_prerequisite))
  = ["## Objective"; "Do V"; ""; "## Prerequisites"; "- a"; "- b"; "";
     "## Acceptance Criteria"].
Proof. repeat split. Qed.

(** C8 fails as stated: the task [task_multiline_criterion] has one
    acceptance criterion, and the header [## Acceptance Criteria] of its
    body is followed by the two checklist lines [- [ ] A] and [- [ ] B]. *)
Lemma multiline_criterion_renders_two_checklist_lines :
  List.length (acceptanceCriteria task_multiline_criterion) = 1%nat /\
  create_issue_body str_atoms (task_json task_multiline_criterion)
  = Ok (objective_part task_multiline_criterion ++ prerequisites_header
        ++ prerequisites_section task_multiline_criterion
        ++ nl ++ ("## Acceptance Criteria" ++ nl)
        ++ ("- [ ] A" ++ nl ++ "- [ ] B" ++ nl)
        ++ (nl ++ "## Time Estimate" ++ nl ++ "1h" ++ nl)
        ++ body_footer) /\
  lines (("## Acceptance Criteria" ++ nl) ++ ("- [ ] A" ++ nl ++ "- [ ] B" ++ nl))
  = ["## Acceptance Criteria"; "- [ ] A"; "- [ ] B"] /\
  firstn 6 (skipn 5 (lines (issue_body task_multiline_criterion)))
  = [""; "## Acceptance Criteria"; "- [ ] A"; "- [ ] B"; "";
     "## Time Estimate"].
Proof. repeat split. Qed.

(** C9 fails as stated: a client that is installed but not executable
    makes [check_gh_cli] raise, and nothing is printed. *)
Lemma check_gh_cli_raises_when_not_executable :
  spawn env_not_executable 0 gh_auth_status = CannotStart "PermissionError" /\
  check_gh_cli env_not_executable []
  = (Raise (OtherError "PermissionError"), [ERun gh_auth_status]).
Proof. repeat split. Qed.
